(** * Ion::ExternalFlash::Device -- the Quad-SPI external flash driver

    A shallow embedding of [ion/src/device/external_flash.cpp].  The driver
    talks to the QUADSPI peripheral through its registers; every register
    access is recorded, in program order, in a trace.  What the peripheral
    answers (the BUSY bit of QUADSPI.SR, the bytes popped from QUADSPI.DR) is
    not decided by the driver: it is an input, given as a [Device].

    The two polling loops of the driver have no bound, so the functions that
    contain them take a [fuel] argument, the largest number of iterations any
    loop may run; a run that is still looping when the fuel is spent has the
    outcome [Spinning]. *)

From Stdlib Require Import ZArith List Bool Arith Lia.
Import ListNotations.
Local Open Scope Z_scope.

(** ** Registers *)

(** The header [regs/quadspi.h], which declares the registers and their
    enumerations, is not among the sources. *)
Module QUADSPI.

(** Modelled from the spec: the functional modes of the controller, which
    the driver names [QUADSPI::CCR::FunctionalMode::IndirectWrite],
    [IndirectRead] and [MemoryMapped]. *)
Inductive FunctionalMode : Type :=
| IndirectWrite
| IndirectRead
| MemoryMapped.

(** Modelled from the spec: the operating modes, one, two or four signal
    lines; the driver names [Single] and [Quad]. *)
Inductive OperatingMode : Type :=
| Single
| Dual
| Quad.

(** The address sizes; the driver names [ThreeBytes] only. *)
Inductive Size : Type :=
| OneByte
| TwoBytes
| ThreeBytes
| FourBytes.

End QUADSPI.
Export QUADSPI.

(** Modelled from the spec: the commands of the flash chip, declared in
    [external_flash.h], which is not among the sources.  The driver names
    [ReadStatusRegister], [WriteEnable], [ChipErase], [ReadData] and
    [EnableQPI]; it never inspects an opcode, which it only casts into the
    INSTRUCTION field. *)
Inductive Command : Type :=
| ReadStatusRegister
| WriteEnable
| ChipErase
| SectorErase
| PageProgram
| ReadData
| EnableQPI.

Definition FunctionalMode_eqb (a b : FunctionalMode) : bool :=
  match a, b with
  | IndirectWrite, IndirectWrite => true
  | IndirectRead, IndirectRead => true
  | MemoryMapped, MemoryMapped => true
  | _, _ => false
  end.

Definition OperatingMode_eqb (a b : OperatingMode) : bool :=
  match a, b with
  | Single, Single => true
  | Dual, Dual => true
  | Quad, Quad => true
  | _, _ => false
  end.

(** The communication configuration register, field by field.  A field of
    a [CCR] built by [ccr(0)] and never set is [None]: all its bits are zero,
    and for a mode field the phase is skipped. *)
Record CCR : Type := mkCCR {
  FMODE : option FunctionalMode;
  DMODE : option OperatingMode;
  DCYC : Z;
  ADSIZE : option Size;
  ADMODE : option OperatingMode;
  IMODE : option OperatingMode;
  INSTRUCTION : option Command
}.

(** [class QUADSPI::CCR ccr(0)] *)
Definition ccr0 : CCR := mkCCR None None 0 None None None None.

Definition setFMODE (m : FunctionalMode) (r : CCR) : CCR :=
  mkCCR (Some m) (DMODE r) (DCYC r) (ADSIZE r) (ADMODE r) (IMODE r) (INSTRUCTION r).
Definition setDMODE (m : OperatingMode) (r : CCR) : CCR :=
  mkCCR (FMODE r) (Some m) (DCYC r) (ADSIZE r) (ADMODE r) (IMODE r) (INSTRUCTION r).
Definition setDCYC (n : Z) (r : CCR) : CCR :=
  mkCCR (FMODE r) (DMODE r) n (ADSIZE r) (ADMODE r) (IMODE r) (INSTRUCTION r).
Definition setADSIZE (z : Size) (r : CCR) : CCR :=
  mkCCR (FMODE r) (DMODE r) (DCYC r) (Some z) (ADMODE r) (IMODE r) (INSTRUCTION r).
Definition setADMODE (m : OperatingMode) (r : CCR) : CCR :=
  mkCCR (FMODE r) (DMODE r) (DCYC r) (ADSIZE r) (Some m) (IMODE r) (INSTRUCTION r).
Definition setIMODE (m : OperatingMode) (r : CCR) : CCR :=
  mkCCR (FMODE r) (DMODE r) (DCYC r) (ADSIZE r) (ADMODE r) (Some m) (INSTRUCTION r).
Definition setINSTRUCTION (c : Command) (r : CCR) : CCR :=
  mkCCR (FMODE r) (DMODE r) (DCYC r) (ADSIZE r) (ADMODE r) (IMODE r) (Some c).

(** GPIO: a pin of a group, and the alternate functions [initGPIO] selects. *)
Record GPIOPin : Type := mkGPIOPin { group : Z; pin : Z }.

Inductive AlternateFunction : Type := AF9 | AF10.

(** One access to a register, as the driver performs it. *)
Inductive Access : Type :=
| SetMODER (g p : Z)                        (* MODER()->setMode(p, AlternateFunction) *)
| SetAFR (g p : Z) (af : AlternateFunction) (* AFR()->setAlternateFunction(p, af) *)
| SetQSPIEN (b : bool)                      (* RCC.AHB3ENR()->setQSPIEN(b) *)
| SetFSIZE (v : Z)                          (* QUADSPI.DCR()->setFSIZE(v) *)
| SetCSHT (v : Z)                           (* QUADSPI.DCR()->setCSHT(v) *)
| SetPRESCALER (v : Z)                      (* QUADSPI.CR()->setPRESCALER(v) *)
| SetEN (b : bool)                          (* QUADSPI.CR()->setEN(b) *)
| SetDLR (v : Z)                            (* QUADSPI.DLR()->set(v) *)
| SetCCR (r : CCR)                          (* QUADSPI.CCR()->set(r) *)
| SetAR (a : Z)                             (* QUADSPI.AR()->set(a) *)
| SetDR (b : Z)                             (* QUADSPI.DR()->set(b) *)
| GetDR (v : Z)                             (* QUADSPI.DR()->get(), which gave v *)
| GetBUSY (b : bool).                       (* QUADSPI.SR()->getBUSY(), which gave b *)

(** The peripheral as the driver sees it: the registers it programs, how
    many times it has read SR and DR, and the trace of its accesses. *)
Record Controller : Type := mkController {
  QUADSPI_CCR : CCR;
  QUADSPI_DLR : Z;
  QUADSPI_AR : Z;
  sr_reads : nat;
  dr_reads : nat;
  trace : list Access
}.

(** The controller after reset: nothing programmed, nothing read. *)
Definition reset : Controller := mkController ccr0 0 0 0 0 [].

(** The controller's functional mode is the FMODE field of its CCR. *)
Definition functionalModeOf (s : Controller) : option FunctionalMode :=
  FMODE (QUADSPI_CCR s).

(** What the hardware answers: the BUSY bit at the n-th read of QUADSPI.SR
    and the word at the n-th read of QUADSPI.DR. *)
Record Device : Type := mkDevice {
  SR_BUSY : nat -> bool;
  DR : nat -> Z
}.

(** ** Outcomes *)

Inductive outcome (A : Type) : Type :=
| Done (a : A) (s : Controller)   (* the call returned *)
| Spinning                        (* a loop was still running when the fuel ran out *)
| Undefined.                      (* an access outside the data buffer *)
Arguments Done {A} a s.
Arguments Spinning {A}.
Arguments Undefined {A}.

Definition M (A : Type) : Type := Controller -> outcome A.

Definition ret {A : Type} (a : A) : M A := fun s => Done a s.

Definition bind {A B : Type} (c : M A) (k : A -> M B) : M B :=
  fun s =>
    match c s with
    | Done a s' => k a s'
    | Spinning => Spinning
    | Undefined => Undefined
    end.

Notation "x <- c ;; k" := (bind c (fun x => k))
  (at level 61, c at next level, right associativity).
Notation "c ;; k" := (bind c (fun _ => k))
  (at level 61, right associativity).

Definition spin {A : Type} : M A := fun _ => Spinning.
Definition undefined {A : Type} : M A := fun _ => Undefined.

Definition record (e : Access) (s : Controller) : Controller :=
  mkController (QUADSPI_CCR s) (QUADSPI_DLR s) (QUADSPI_AR s)
               (sr_reads s) (dr_reads s) (trace s ++ [e]).

(** A register access that only shows in the trace. *)
Definition access (e : Access) : M unit := fun s => Done tt (record e s).

Definition DLR_set (v : Z) : M unit :=
  fun s => Done tt (mkController (QUADSPI_CCR s) v (QUADSPI_AR s)
                                 (sr_reads s) (dr_reads s) (trace s ++ [SetDLR v])).

Definition CCR_set (r : CCR) : M unit :=
  fun s => Done tt (mkController r (QUADSPI_DLR s) (QUADSPI_AR s)
                                 (sr_reads s) (dr_reads s) (trace s ++ [SetCCR r])).

Definition AR_set (a : Z) : M unit :=
  fun s => Done tt (mkController (QUADSPI_CCR s) (QUADSPI_DLR s) a
                                 (sr_reads s) (dr_reads s) (trace s ++ [SetAR a])).

Definition DR_set (b : Z) : M unit := access (SetDR b).

Definition DR_get (hw : Device) : M Z :=
  fun s =>
    let v := DR hw (dr_reads s) in
    Done v (mkController (QUADSPI_CCR s) (QUADSPI_DLR s) (QUADSPI_AR s)
                         (sr_reads s) (S (dr_reads s)) (trace s ++ [GetDR v])).

Definition SR_getBUSY (hw : Device) : M bool :=
  fun s =>
    let b := SR_BUSY hw (sr_reads s) in
    Done b (mkController (QUADSPI_CCR s) (QUADSPI_DLR s) (QUADSPI_AR s)
                         (S (sr_reads s)) (dr_reads s) (trace s ++ [GetBUSY b])).

(** ** Data buffers

    A [uint8_t *] is [None] for [nullptr] and [Some buf] for a pointer to the
    bytes [buf]; reading or writing [data[i]] outside the buffer is
    undefined. *)
Definition buffer : Type := option (list Z).

Definition load (data : buffer) (i : nat) : option Z :=
  match data with
  | None => None
  | Some buf => nth_error buf i
  end.

Fixpoint update (buf : list Z) (i : nat) (b : Z) : option (list Z) :=
  match buf, i with
  | [], _ => None
  | _ :: t, O => Some (b :: t)
  | h :: t, S i' =>
      match update t i' b with
      | Some t' => Some (h :: t')
      | None => None
      end
  end.

Definition store (data : buffer) (i : nat) (b : Z) : option buffer :=
  match data with
  | None => None
  | Some buf =>
      match update buf i b with
      | Some buf' => Some (Some buf')
      | None => None
      end
  end.

Definition is_null (data : buffer) : bool :=
  match data with None => true | Some _ => false end.

(** The status register of the flash chip as [wait] declares it: a
    [Register16] ([regs/register.h] is not among the sources: a register
    holding one 16-bit value), with BUSY its bit 0.  The target is
    little-endian: the first byte of the object is the low byte. *)
Definition sizeof_Register16 : Z := 2.

Definition Register16_bytes (v : Z) : list Z := [v mod 256; (v / 256) mod 256].

Definition Register16_of_bytes (l : list Z) : Z :=
  nth 0 l 0 + 256 * nth 1 l 0.

Definition getBUSY (statusRegister : Z) : bool := Z.testbit statusRegister 0.

(** Simulated devices: one that is never busy, one whose flash chip never
    leaves its busy state, one whose flash chip is busy for the first two
    polls, one whose controller stays busy for three reads of SR. *)
Definition idle_device : Device := mkDevice (fun _ => false) (fun _ => 0).

Definition stuck_device : Device := mkDevice (fun _ => false) (fun _ => 1).

Definition slow_device : Device :=
  mkDevice (fun _ => false) (fun n => if (n <? 4)%nat then 3 else 2).

Definition lagging_device : Device :=
  mkDevice (fun n => (n <? 3)%nat) (fun _ => 0).

(** A device whose controller never leaves its busy state. *)
Definition jammed_device : Device := mkDevice (fun _ => true) (fun _ => 0).

(** A device whose data register gives words wider than a byte: 256, 257,
    258, ... *)
Definition wide_device : Device :=
  mkDevice (fun _ => false) (fun n => 256 + Z.of_nat n).

(** The pins of [QSPIPins] on a board (the table is in a header that is not
    among the sources): used to run [init] on a concrete board. *)
Definition board_pins : list GPIOPin :=
  [mkGPIOPin 1 2; mkGPIOPin 1 6; mkGPIOPin 2 9; mkGPIOPin 3 12].

(** ** The driver *)

Section Driver.

(** [static constexpr QUADSPI::CCR::OperatingMode DefaultOperatingMode]:
    [Single] in the source; kept as a parameter since [initChip] branches
    on it. *)
Variable DefaultOperatingMode : OperatingMode.

(** Constants of [external_flash.h], which is not among the sources. *)
Variable QSPIPins : list GPIOPin.
Variable FlashNumberOfAddressBits : Z.

Variable hw : Device.

(** [for (size_t i=0; i<dataLength; i++) QUADSPI.DR()->set(data[i]);]
    with [n] iterations left, starting at index [i]. *)
Fixpoint write_data (data : buffer) (n i : nat) : M unit :=
  match n with
  | O => ret tt
  | S n' =>
      match load data i with
      | None => undefined
      | Some b => DR_set b ;; write_data data n' (S i)
      end
  end.

(** [for (size_t i=0; i<dataLength; i++) data[i] = QUADSPI.DR()->get();]
    (the assignment keeps the low byte of the register). *)
Fixpoint read_data (data : buffer) (n i : nat) : M buffer :=
  match n with
  | O => ret data
  | S n' =>
      v <- DR_get hw ;;
      match store data i (v mod 256) with
      | None => undefined
      | Some data' => read_data data' n' (S i)
      end
  end.

(** [while (QUADSPI.SR()->getBUSY()) { }] *)
Fixpoint while_BUSY (fuel : nat) : M unit :=
  match fuel with
  | O => spin
  | S fuel' =>
      b <- SR_getBUSY hw ;;
      if b then while_BUSY fuel' else ret tt
  end.

(** The integers of the source are unbounded here: [address] is a
    [uint32_t], [dummyCycles] a [uint8_t] and [dataLength] a [size_t], and
    the only arithmetic on them, [dataLength-1], is guarded against 0. *)
Definition send_command_full (fuel : nat)
    (functionalMode : FunctionalMode) (operatingMode : OperatingMode)
    (c : Command) (address : Z) (dummyCycles : Z)
    (data : buffer) (dataLength : Z) : M buffer :=
  let ccr := ccr0 in
  let ccr := setFMODE functionalMode ccr in
  let ccr :=
    if negb (is_null data) || FunctionalMode_eqb functionalMode MemoryMapped
    then setDMODE operatingMode ccr else ccr in
  DLR_set (if 0 <? dataLength then dataLength - 1 else 0) ;;
  let ccr := setDCYC dummyCycles ccr in
  let ccr :=
    if negb (address =? 0) || FunctionalMode_eqb functionalMode MemoryMapped
    then setADSIZE ThreeBytes (setADMODE operatingMode ccr) else ccr in
  let ccr := setIMODE operatingMode ccr in
  let ccr := setINSTRUCTION c ccr in
  CCR_set ccr ;;
  (if negb (address =? 0) then AR_set address else ret tt) ;;
  data' <- match functionalMode with
           | IndirectWrite =>
               write_data data (Z.to_nat dataLength) 0 ;; ret data
           | IndirectRead =>
               read_data data (Z.to_nat dataLength) 0
           | MemoryMapped => ret data
           end ;;
  (if negb (FunctionalMode_eqb functionalMode MemoryMapped)
   then while_BUSY fuel else ret tt) ;;
  ret data'.

Definition send_command (fuel : nat) (c : Command) : M unit :=
  send_command_full fuel IndirectWrite DefaultOperatingMode c 0 0 None 0 ;;
  ret tt.

Definition send_command_single (fuel : nat) (c : Command) : M unit :=
  send_command_full fuel IndirectWrite Single c 0 0 None 0 ;;
  ret tt.

Definition send_write_command (fuel : nat) (c : Command) (address : Z)
    (data : buffer) (dataLength : Z) : M unit :=
  send_command_full fuel IndirectWrite DefaultOperatingMode c
                    address 0 data dataLength ;;
  ret tt.

Definition send_read_command (fuel : nat) (c : Command) (address : Z)
    (data : buffer) (dataLength : Z) : M buffer :=
  send_command_full fuel IndirectRead DefaultOperatingMode c
                    address 0 data dataLength.

(** One turn of the [do ... while] loop of [wait]: the status read into
    the object [statusRegister]; gives the object's new value. *)
Definition poll (fuel : nat) (statusRegister : Z) : M Z :=
  data <- send_read_command fuel ReadStatusRegister 0
            (Some (Register16_bytes statusRegister)) sizeof_Register16 ;;
  match data with
  | Some bytes => ret (Register16_of_bytes bytes)
  | None => undefined
  end.

(** [do { ... } while (statusRegister.getBUSY());] *)
Fixpoint wait_loop (fuel : nat) (statusRegister : Z) : M unit :=
  match fuel with
  | O => spin
  | S fuel' =>
      statusRegister' <- poll fuel' statusRegister ;;
      if getBUSY statusRegister' then wait_loop fuel' statusRegister'
      else ret tt
  end.

Definition wait (fuel : nat) : M unit :=
  let statusRegister := 0 in
  wait_loop fuel statusRegister.

Definition set_as_memory_mapped (fuel : nat) : M unit :=
  send_command_full fuel MemoryMapped DefaultOperatingMode ReadData 0 0 None 0 ;;
  ret tt.

Fixpoint initGPIO_from (pins : list GPIOPin) : M unit :=
  match pins with
  | [] => ret tt
  | g :: rest =>
      access (SetMODER (group g) (pin g)) ;;
      access (SetAFR (group g) (pin g) (if pin g =? 6 then AF10 else AF9)) ;;
      initGPIO_from rest
  end.

Definition initGPIO : M unit := initGPIO_from QSPIPins.

Definition initQSPI : M unit :=
  access (SetQSPIEN true) ;;
  access (SetFSIZE (FlashNumberOfAddressBits - 1)) ;;
  access (SetCSHT 7) ;;
  access (SetPRESCALER 255) ;;
  access (SetEN true).

Definition initChip (fuel : nat) : M unit :=
  (if OperatingMode_eqb DefaultOperatingMode Quad
   then send_command_single fuel EnableQPI else ret tt) ;;
  set_as_memory_mapped fuel.

Definition init (fuel : nat) : M unit :=
  initGPIO ;;
  initQSPI ;;
  initChip fuel.

Definition MassErase (fuel : nat) : M unit :=
  send_command fuel WriteEnable ;;
  send_command fuel ChipErase ;;
  wait fuel ;;
  set_as_memory_mapped fuel.

Definition EraseSector (fuel : nat) : M unit :=
  send_command fuel WriteEnable ;;
  wait fuel ;;
  set_as_memory_mapped fuel.

Definition WriteMemory (fuel : nat)
    (source : list Z) (destination : Z) (length : Z) : M unit :=
  send_command fuel WriteEnable ;;
  wait fuel ;;
  set_as_memory_mapped fuel.

(** ** What a call leaves behind *)

(** The CCR value [send_command_full] builds for a command. *)
Definition command_ccr (functionalMode : FunctionalMode)
    (operatingMode : OperatingMode) (c : Command) (address dummyCycles : Z)
    (data : buffer) : CCR :=
  mkCCR (Some functionalMode)
        (if negb (is_null data) || FunctionalMode_eqb functionalMode MemoryMapped
         then Some operatingMode else None)
        dummyCycles
        (if negb (address =? 0) || FunctionalMode_eqb functionalMode MemoryMapped
         then Some ThreeBytes else None)
        (if negb (address =? 0) || FunctionalMode_eqb functionalMode MemoryMapped
         then Some operatingMode else None)
        (Some operatingMode)
        (Some c).

(** The accesses of lines 91-107: DLR, CCR and, for a non-zero address, AR. *)
Definition setup (r : CCR) (address dataLength : Z) : list Access :=
  SetDLR (if 0 <? dataLength then dataLength - 1 else 0)
  :: SetCCR r
  :: (if address =? 0 then [] else [SetAR address]).

(** [n] reads of SR, the first being read number [from]. *)
Definition polls (from n : nat) : list Access :=
  map (fun i => GetBUSY (SR_BUSY hw i)) (seq from n).

(** [n] reads of DR, the first being read number [from]. *)
Definition fetches (from n : nat) : list Access :=
  map (fun i => GetDR (DR hw i)) (seq from n).

(** The bytes [n] reads of DR put in a buffer. *)
Definition fetched (from n : nat) : list Z :=
  map (fun i => DR hw i mod 256) (seq from n).

(** The data-phase accesses of a transaction. *)
Definition transfer (functionalMode : FunctionalMode) (data : buffer)
    (dataLength : Z) (from : nat) : list Access :=
  match functionalMode with
  | IndirectWrite =>
      map SetDR (firstn (Z.to_nat dataLength)
                        (match data with Some buf => buf | None => [] end))
  | IndirectRead => fetches from (Z.to_nat dataLength)
  | MemoryMapped => []
  end.

(** The projections of a trace. *)
Definition ccr_writes (l : list Access) : list CCR :=
  flat_map (fun e => match e with SetCCR r => [r] | _ => [] end) l.

Definition dlr_writes (l : list Access) : list Z :=
  flat_map (fun e => match e with SetDLR v => [v] | _ => [] end) l.

Definition ar_writes (l : list Access) : list Z :=
  flat_map (fun e => match e with SetAR a => [a] | _ => [] end) l.

Definition dr_writes (l : list Access) : list Z :=
  flat_map (fun e => match e with SetDR b => [b] | _ => [] end) l.

(** The commands sent, in order: the INSTRUCTION of each CCR written. *)
Definition commands (l : list Access) : list (option Command) :=
  map INSTRUCTION (ccr_writes l).

(** An access of the data phase or a poll of SR: it programs nothing. *)
Definition is_io (e : Access) : bool :=
  match e with
  | SetDR _ | GetDR _ | GetBUSY _ => true
  | _ => false
  end.

(** The controller after some more accesses that program nothing. *)
Definition logged (evs : list Access) (s : Controller) : Controller :=
  mkController (QUADSPI_CCR s) (QUADSPI_DLR s) (QUADSPI_AR s)
               (sr_reads s) (dr_reads s) (trace s ++ evs).

(** The controller after [n] reads of DR. *)
Definition after_fetches (n : nat) (s : Controller) : Controller :=
  mkController (QUADSPI_CCR s) (QUADSPI_DLR s) (QUADSPI_AR s)
               (sr_reads s) (dr_reads s + n)
               (trace s ++ fetches (dr_reads s) n).

(** The controller after [n] reads of SR. *)
Definition after_polls (n : nat) (s : Controller) : Controller :=
  mkController (QUADSPI_CCR s) (QUADSPI_DLR s) (QUADSPI_AR s)
               (sr_reads s + n) (dr_reads s)
               (trace s ++ polls (sr_reads s) n).

(** The controller after lines 91-107 of [send_command_full]. *)
Definition programmed (r : CCR) (address dataLength : Z) (s : Controller)
    : Controller :=
  mkController r (if 0 <? dataLength then dataLength - 1 else 0)
               (if address =? 0 then QUADSPI_AR s else address)
               (sr_reads s) (dr_reads s)
               (trace s ++ setup r address dataLength).

(** The controller after the data phase. *)
Definition transferred (functionalMode : FunctionalMode) (data : buffer)
    (dataLength : Z) (s : Controller) : Controller :=
  match functionalMode with
  | IndirectWrite => logged (transfer IndirectWrite data dataLength 0) s
  | IndirectRead => after_fetches (Z.to_nat dataLength) s
  | MemoryMapped => s
  end.

(** The buffer after the data phase. *)
Definition received (functionalMode : FunctionalMode) (data : buffer)
    (dataLength : Z) (from : nat) : buffer :=
  match functionalMode, data with
  | IndirectRead, Some buf =>
      Some (fetched from (Z.to_nat dataLength)
            ++ skipn (Z.to_nat dataLength) buf)
  | _, _ => data
  end.

(** The buffer is large enough for the data phase. *)
Definition in_bounds (functionalMode : FunctionalMode) (data : buffer)
    (dataLength : Z) : Prop :=
  match functionalMode with
  | MemoryMapped => True
  | _ =>
      Z.to_nat dataLength = O \/
      exists buf, data = Some buf /\ (Z.to_nat dataLength <= length buf)%nat
  end.

(** The BUSY bit of SR is set for the next [k] reads and clear at the
    read after them. *)
Definition clears_after (k : nat) (s : Controller) : Prop :=
  (forall j, (j < k)%nat -> SR_BUSY hw (sr_reads s + j) = true) /\
  SR_BUSY hw (sr_reads s + k) = false.

(** The controller after a transaction that polled SR [k] times. *)
Definition sent (functionalMode : FunctionalMode)
    (operatingMode : OperatingMode) (c : Command) (address dummyCycles : Z)
    (data : buffer) (dataLength : Z) (k : nat) (s : Controller) : Controller :=
  after_polls k
    (transferred functionalMode data dataLength
       (programmed
          (command_ccr functionalMode operatingMode c address dummyCycles data)
          address dataLength s)).

(** The 16-bit value [wait] finds in [statusRegister] after a status read
    whose first byte is read number [from] of DR. *)
Definition status_at (from : nat) : Z :=
  DR hw from mod 256 + 256 * (DR hw (S from) mod 256).

(** The controller after one status read of [wait]. *)
Definition status_read (statusRegister : Z) (k : nat) (s : Controller)
    : Controller :=
  sent IndirectRead DefaultOperatingMode ReadStatusRegister 0 0
       (Some (Register16_bytes statusRegister)) sizeof_Register16 k s.

(** What the flash chip reports at the status read whose first byte is
    read number [from] of DR. *)
Definition chip_busy (from : nat) : bool := getBUSY (status_at from).

(** From any read of SR on, the controller's BUSY bit falls after finitely
    many reads. *)
Definition settles : Prop :=
  forall m : nat, exists j : nat,
    (forall i : nat, (i < j)%nat -> SR_BUSY hw (m + i)%nat = true) /\
    SR_BUSY hw (m + j)%nat = false.

(** The accesses of [initGPIO] and of [initQSPI]. *)
Definition gpio_accesses (pins : list GPIOPin) : list Access :=
  flat_map (fun g => [SetMODER (group g) (pin g);
                      SetAFR (group g) (pin g)
                             (if pin g =? 6 then AF10 else AF9)]) pins.

Definition qspi_accesses : list Access :=
  [SetQSPIEN true; SetFSIZE (FlashNumberOfAddressBits - 1); SetCSHT 7;
   SetPRESCALER 255; SetEN true].

(** An access that is part of a command: the data length, CCR, or a poll
    of BUSY. *)
Definition is_command_access (e : Access) : bool :=
  match e with
  | SetDLR _ | SetCCR _ | GetBUSY _ => true
  | _ => false
  end.

(** ** Sequencing *)

Lemma bind_Done {A B : Type} (c : M A) (k : A -> M B) s b s' :
  bind c k s = Done b s' ->
  exists a s1, c s = Done a s1 /\ k a s1 = Done b s'.
Proof.
  unfold bind. destruct (c s) as [a s1 | |]; try discriminate.
  intros H. exists a, s1. auto.
Qed.

Lemma Controller_eta s :
  mkController (QUADSPI_CCR s) (QUADSPI_DLR s) (QUADSPI_AR s)
               (sr_reads s) (dr_reads s) (trace s) = s.
Proof. destruct s. reflexivity. Qed.

Lemma logged_nil s : logged [] s = s.
Proof. unfold logged. rewrite app_nil_r. apply Controller_eta. Qed.

Lemma logged_logged l1 l2 s : logged l2 (logged l1 s) = logged (l1 ++ l2) s.
Proof. unfold logged. simpl. rewrite app_assoc. reflexivity. Qed.

(** ** The loops *)

Lemma skipn_nth_error {A : Type} (l : list A) : forall i x,
  nth_error l i = Some x -> skipn i l = x :: skipn (S i) l.
Proof.
  induction l as [| h t IH]; intros [| i] x H; simpl in *; try discriminate.
  - inversion H. reflexivity.
  - apply IH. exact H.
Qed.

Lemma write_data_Done data : forall n i s u s',
  write_data data n i s = Done u s' ->
  s' = logged (map SetDR (firstn n (skipn i
                 (match data with Some buf => buf | None => [] end)))) s
  /\ (n = O \/ exists buf, data = Some buf /\ (i + n <= length buf)%nat).
Proof.
  induction n as [| n IH]; intros i s u s' H; simpl in H.
  - inversion H. subst. simpl. rewrite logged_nil. auto.
  - destruct (load data i) as [b |] eqn:Hl; try discriminate.
    destruct data as [buf |]; simpl in Hl; try discriminate.
    apply bind_Done in H. destruct H as (x & s1 & H1 & H2).
    inversion H1; subst s1. apply IH in H2. destruct H2 as [-> Hb].
    rewrite (skipn_nth_error buf i b Hl). simpl firstn. simpl map.
    split.
    + unfold logged, record. simpl. rewrite <- app_assoc. reflexivity.
    + right. exists buf. split; [reflexivity |].
      destruct Hb as [-> | (buf' & E & Hle)].
      * assert (i < length buf)%nat by (apply nth_error_Some; congruence). lia.
      * inversion E. subst. lia.
Qed.

Lemma write_data_returns buf : forall n i s,
  (i + n <= length buf)%nat ->
  write_data (Some buf) n i s =
  Done tt (logged (map SetDR (firstn n (skipn i buf))) s).
Proof.
  induction n as [| n IH]; intros i s Hle; simpl.
  - rewrite logged_nil. reflexivity.
  - destruct (nth_error buf i) as [b |] eqn:Hl.
    + rewrite (skipn_nth_error buf i b Hl). simpl firstn. simpl map.
      unfold DR_set, access. unfold bind at 1.
      rewrite IH by lia.
      unfold logged, record. simpl. rewrite <- app_assoc. reflexivity.
    + apply nth_error_None in Hl. lia.
Qed.

Lemma update_Some : forall buf i b buf',
  update buf i b = Some buf' ->
  (i < length buf)%nat /\ buf' = firstn i buf ++ b :: skipn (S i) buf.
Proof.
  induction buf as [| h t IH]; intros i b buf' H; simpl in H; try discriminate.
  destruct i as [| i].
  - inversion H. simpl. split; [lia | reflexivity].
  - destruct (update t i b) as [t' |] eqn:E; try discriminate.
    inversion H. subst. apply IH in E. destruct E as [Hlt ->].
    simpl. split; [lia | reflexivity].
Qed.

Lemma update_in_bounds : forall buf i b,
  (i < length buf)%nat ->
  update buf i b = Some (firstn i buf ++ b :: skipn (S i) buf).
Proof.
  induction buf as [| h t IH]; intros i b Hlt; simpl in Hlt; try lia.
  destruct i as [| i]; simpl.
  - reflexivity.
  - rewrite IH by lia. reflexivity.
Qed.

Lemma firstn_splice : forall (buf : list Z) i v,
  (i < length buf)%nat ->
  firstn (S i) (firstn i buf ++ v :: skipn (S i) buf) = firstn i buf ++ [v].
Proof.
  induction buf as [| h t IH]; intros [| i] v Hlt; simpl in Hlt; try lia.
  - reflexivity.
  - change (h :: firstn (S i) (firstn i t ++ v :: skipn (S i) t)
            = h :: firstn i t ++ [v]).
    rewrite IH by lia. reflexivity.
Qed.

Lemma skipn_splice : forall (buf : list Z) i n v,
  (i < length buf)%nat ->
  skipn (S i + n) (firstn i buf ++ v :: skipn (S i) buf) = skipn (S i + n) buf.
Proof.
  induction buf as [| h t IH]; intros [| i] n v Hlt; simpl in Hlt; try lia.
  - reflexivity.
  - change (skipn (S i + n) (firstn i t ++ v :: skipn (S i) t)
            = skipn (S i + n) t).
    apply IH. lia.
Qed.

Lemma fetches_S from n :
  fetches from (S n) = GetDR (DR hw from) :: fetches (S from) n.
Proof. reflexivity. Qed.

Lemma fetched_S from n :
  fetched from (S n) = DR hw from mod 256 :: fetched (S from) n.
Proof. reflexivity. Qed.

Lemma polls_S from n :
  polls from (S n) = GetBUSY (SR_BUSY hw from) :: polls (S from) n.
Proof. reflexivity. Qed.

(** After [n] reads into a buffer from index [i] on, the buffer holds the
    bytes read at [i .. i+n-1] and is otherwise as before. *)
Lemma read_data_Done : forall n i data s d s',
  read_data data n i s = Done d s' ->
  s' = after_fetches n s /\
  d = option_map (fun buf => firstn i buf ++ fetched (dr_reads s) n
                               ++ skipn (i + n) buf) data /\
  (n = O \/ exists buf, data = Some buf /\ (i + n <= length buf)%nat).
Proof.
  induction n as [| n IH]; intros i data s d s' H; simpl in H.
  - injection H as Hd Hs. subst d s'. unfold after_fetches. simpl.
    rewrite Nat.add_0_r, app_nil_r, Controller_eta.
    split; [reflexivity | split; [| auto]].
    destruct data as [buf |]; simpl; [| reflexivity].
    rewrite Nat.add_0_r, firstn_skipn. reflexivity.
  - apply bind_Done in H. destruct H as (v & s1 & H1 & H2).
    unfold DR_get in H1. inversion H1. subst v. clear H1.
    destruct (store data i (DR hw (dr_reads s) mod 256)) as [data' |] eqn:Hs;
      try discriminate.
    destruct data as [buf |]; simpl in Hs; try discriminate.
    destruct (update buf i (DR hw (dr_reads s) mod 256)) as [buf' |] eqn:Hu;
      try discriminate.
    inversion Hs. subst data'. clear Hs.
    apply update_Some in Hu. destruct Hu as [Hlt Hbuf'].
    apply IH in H2. destruct H2 as (Hs' & Hd & Hb).
    subst s1. cbn [option_map dr_reads] in Hd.
    assert (Hlen : length (firstn i buf) = i) by (apply firstn_length_le; lia).
    assert (Hlen' : length buf' = length buf).
    { subst buf'. rewrite length_app, Hlen, length_cons, length_skipn. lia. }
    split; [| split].
    + subst s'. unfold after_fetches. simpl. rewrite fetches_S.
      f_equal; [lia | rewrite <- app_assoc; reflexivity].
    + subst d. cbn [option_map]. f_equal. rewrite fetched_S. subst buf'.
      rewrite firstn_splice, skipn_splice by lia.
      rewrite <- app_assoc, Nat.add_succ_r. reflexivity.
    + right. exists buf. split; [reflexivity |].
      destruct Hb as [-> | (b2 & E & Hle)]; [lia |].
      inversion E. subst b2. lia.
Qed.

Lemma read_data_returns : forall n i buf s,
  (i + n <= length buf)%nat ->
  exists d, read_data (Some buf) n i s = Done d (after_fetches n s).
Proof.
  induction n as [| n IH]; intros i buf s Hle; simpl.
  - exists (Some buf). unfold after_fetches, ret. simpl.
    rewrite Nat.add_0_r, app_nil_r, Controller_eta. reflexivity.
  - unfold bind at 1, DR_get at 1. simpl.
    rewrite update_in_bounds by lia.
    set (buf' := firstn i buf ++ DR hw (dr_reads s) mod 256 :: skipn (S i) buf).
    assert (Hlen' : length buf' = length buf).
    { unfold buf'.
      rewrite length_app, length_cons, firstn_length_le, length_skipn by lia.
      lia. }
    match goal with
    | |- exists d, read_data _ _ _ ?s1 = _ =>
        destruct (IH (S i) buf' s1) as [d Hd]; [lia |]; exists d; rewrite Hd
    end.
    unfold after_fetches. simpl. rewrite fetches_S.
    f_equal. f_equal; [lia | rewrite <- app_assoc; reflexivity].
Qed.

(** The busy-wait returns at the first read of SR that finds BUSY clear,
    and not before. *)
Lemma while_BUSY_Done : forall fuel s u s',
  while_BUSY fuel s = Done u s' ->
  exists k, (k < fuel)%nat /\ clears_after k s /\ s' = after_polls (S k) s.
Proof.
  induction fuel as [| fuel IH]; intros s u s' H; simpl in H.
  - discriminate.
  - unfold bind, SR_getBUSY in H.
    destruct (SR_BUSY hw (sr_reads s)) eqn:Hb.
    + apply IH in H. destruct H as (k & Hk & [Hbusy Hclear] & ->).
      simpl in Hbusy, Hclear.
      exists (S k). split; [lia |]. split; [split |].
      * intros [| j] Hj.
        -- rewrite Nat.add_0_r. exact Hb.
        -- rewrite Nat.add_succ_r. apply Hbusy. lia.
      * rewrite Nat.add_succ_r. exact Hclear.
      * unfold after_polls. simpl sr_reads. simpl trace.
        rewrite (polls_S (sr_reads s) (S k)), Hb.
        f_equal; [lia | rewrite <- app_assoc; reflexivity].
    + inversion H. subst. exists O. split; [lia |]. split; [split |].
      * intros j Hj. lia.
      * rewrite Nat.add_0_r. exact Hb.
      * unfold after_polls. rewrite polls_S, Hb. simpl.
        f_equal. lia.
Qed.

Lemma while_BUSY_returns : forall k fuel s,
  clears_after k s -> (k < fuel)%nat ->
  while_BUSY fuel s = Done tt (after_polls (S k) s).
Proof.
  induction k as [| k IH]; intros fuel s [Hbusy Hclear] Hlt;
    (destruct fuel as [| fuel]; [lia |]); simpl;
    unfold bind, SR_getBUSY.
  - rewrite Nat.add_0_r in Hclear. rewrite Hclear.
    unfold after_polls. rewrite polls_S, Hclear. simpl.
    unfold ret. f_equal. f_equal. lia.
  - assert (Hb : SR_BUSY hw (sr_reads s) = true).
    { rewrite <- (Nat.add_0_r (sr_reads s)). apply Hbusy. lia. }
    rewrite Hb. rewrite IH.
    + unfold after_polls. simpl sr_reads. simpl trace.
      rewrite (polls_S (sr_reads s) (S k)), Hb.
      f_equal. f_equal; [lia | rewrite <- app_assoc; reflexivity].
    + split; simpl.
      * intros j Hj. rewrite <- Nat.add_succ_r. apply Hbusy. lia.
      * rewrite <- Nat.add_succ_r. exact Hclear.
    + lia.
Qed.

Lemma while_BUSY_stuck : forall fuel s,
  (forall j, SR_BUSY hw (sr_reads s + j) = true) ->
  while_BUSY fuel s = Spinning.
Proof.
  induction fuel as [| fuel IH]; intros s Hbusy; simpl.
  - reflexivity.
  - unfold bind, SR_getBUSY.
    assert (Hb : SR_BUSY hw (sr_reads s) = true).
    { rewrite <- (Nat.add_0_r (sr_reads s)). apply Hbusy. }
    rewrite Hb. apply IH. simpl. intros j. rewrite <- Nat.add_succ_r. apply Hbusy.
Qed.

(** ** One transaction *)

Lemma after_polls_0 s : after_polls 0 s = s.
Proof.
  unfold after_polls, polls. simpl.
  rewrite Nat.add_0_r, app_nil_r. apply Controller_eta.
Qed.

Lemma clears_after_sr k s1 s2 :
  sr_reads s1 = sr_reads s2 -> clears_after k s1 -> clears_after k s2.
Proof. unfold clears_after. intros <-. auto. Qed.

Lemma sent_CCR fm op c a dc data dl k s :
  QUADSPI_CCR (sent fm op c a dc data dl k s) = command_ccr fm op c a dc data.
Proof. destruct fm; reflexivity. Qed.

Lemma sent_DLR fm op c a dc data dl k s :
  QUADSPI_DLR (sent fm op c a dc data dl k s)
  = if 0 <? dl then dl - 1 else 0.
Proof. destruct fm; reflexivity. Qed.

Lemma sent_AR fm op c a dc data dl k s :
  QUADSPI_AR (sent fm op c a dc data dl k s)
  = if a =? 0 then QUADSPI_AR s else a.
Proof. destruct fm; reflexivity. Qed.

Lemma sent_sr_reads fm op c a dc data dl k s :
  sr_reads (sent fm op c a dc data dl k s) = (sr_reads s + k)%nat.
Proof. destruct fm; reflexivity. Qed.

Lemma sent_dr_reads fm op c a dc data dl k s :
  dr_reads (sent fm op c a dc data dl k s)
  = (dr_reads s + match fm with IndirectRead => Z.to_nat dl | _ => O end)%nat.
Proof. destruct fm; simpl; lia. Qed.

Lemma sent_trace fm op c a dc data dl k s :
  trace (sent fm op c a dc data dl k s)
  = trace s ++ setup (command_ccr fm op c a dc data) a dl
            ++ transfer fm data dl (dr_reads s)
            ++ polls (sr_reads s) k.
Proof.
  destruct fm; simpl; rewrite <- ?app_assoc; reflexivity.
Qed.

Lemma command_ccr_built fm op c a dc data :
  setINSTRUCTION c
    (setIMODE op
       (if negb (a =? 0) || FunctionalMode_eqb fm MemoryMapped
        then setADSIZE ThreeBytes
               (setADMODE op
                  (setDCYC dc
                     (if negb (is_null data) || FunctionalMode_eqb fm MemoryMapped
                      then setDMODE op (setFMODE fm ccr0)
                      else setFMODE fm ccr0)))
        else setDCYC dc
               (if negb (is_null data) || FunctionalMode_eqb fm MemoryMapped
                then setDMODE op (setFMODE fm ccr0)
                else setFMODE fm ccr0)))
  = command_ccr fm op c a dc data.
Proof.
  unfold command_ccr.
  destruct (negb (a =? 0) || FunctionalMode_eqb fm MemoryMapped);
    destruct (negb (is_null data) || FunctionalMode_eqb fm MemoryMapped);
    reflexivity.
Qed.

(** Lines 91-107 always run to their end. *)
Lemma send_command_full_setup fuel fm op c a dc data dl s :
  send_command_full fuel fm op c a dc data dl s =
  (data' <- match fm with
            | IndirectWrite => write_data data (Z.to_nat dl) 0 ;; ret data
            | IndirectRead => read_data data (Z.to_nat dl) 0
            | MemoryMapped => ret data
            end ;;
   (if negb (FunctionalMode_eqb fm MemoryMapped)
    then while_BUSY fuel else ret tt) ;;
   ret data')
    (programmed (command_ccr fm op c a dc data) a dl s).
Proof.
  unfold send_command_full. cbv zeta. rewrite command_ccr_built.
  unfold bind at 1, DLR_set. unfold bind at 1, CCR_set.
  unfold bind at 1. unfold programmed, setup.
  destruct (a =? 0); simpl; unfold AR_set, ret; simpl;
    rewrite <- ?app_assoc; reflexivity.
Qed.

(** What a transaction that returns has done. *)
Lemma send_command_full_Done fuel fm op c a dc data dl s d s' :
  send_command_full fuel fm op c a dc data dl s = Done d s' ->
  exists k,
    s' = sent fm op c a dc data dl k s /\
    d = received fm data dl (dr_reads s) /\
    in_bounds fm data dl /\
    match fm with
    | MemoryMapped => k = O
    | _ => exists j, k = S j /\ (j < fuel)%nat /\ clears_after j s
    end.
Proof.
  rewrite send_command_full_setup. unfold sent.
  set (s0 := programmed (command_ccr fm op c a dc data) a dl s).
  assert (Hsr : sr_reads s0 = sr_reads s) by reflexivity.
  assert (Hdr : dr_reads s0 = dr_reads s) by reflexivity.
  clearbody s0. intros H.
  apply bind_Done in H. destruct H as (d' & s1 & H1 & H).
  apply bind_Done in H. destruct H as (u & s2 & H2 & H).
  injection H as Hd Hs. subst d' s2.
  destruct fm; simpl in H2.
  - apply bind_Done in H1. destruct H1 as (u1 & s3 & H1 & H3).
    injection H3 as Hd Hs. subst d s3.
    apply write_data_Done in H1. destruct H1 as [-> Hb].
    apply while_BUSY_Done in H2. destruct H2 as (j & Hj & Hc & ->).
    exists (S j). split; [reflexivity |]. split; [reflexivity |]. split.
    + simpl. destruct Hb as [-> | (buf & -> & Hle)]; [left | right]; eauto.
    + exists j. split; [reflexivity |]. split; [exact Hj |].
      eapply clears_after_sr; [| exact Hc]. exact Hsr.
  - apply read_data_Done in H1. destruct H1 as (-> & Hd & Hb).
    apply while_BUSY_Done in H2. destruct H2 as (j & Hj & Hc & ->).
    exists (S j). split; [reflexivity |]. split; [| split].
    + subst d. rewrite Hdr. destruct data; reflexivity.
    + simpl. destruct Hb as [-> | (buf & -> & Hle)]; [left | right]; eauto.
    + exists j. split; [reflexivity |]. split; [exact Hj |].
      eapply clears_after_sr; [| exact Hc]. exact Hsr.
  - injection H1 as Hd Hs. injection H2 as Hs'. subst.
    exists O. rewrite after_polls_0. simpl. auto.
Qed.

(** A transaction whose data fits its buffer returns as soon as the
    controller is no longer busy. *)
Lemma send_command_full_returns fuel fm op c a dc data dl s j :
  in_bounds fm data dl ->
  clears_after j s -> (j < fuel)%nat ->
  fm <> MemoryMapped ->
  send_command_full fuel fm op c a dc data dl s
  = Done (received fm data dl (dr_reads s))
         (sent fm op c a dc data dl (S j) s).
Proof.
  intros Hb Hc Hj Hfm.
  rewrite send_command_full_setup. unfold sent.
  set (s0 := programmed (command_ccr fm op c a dc data) a dl s).
  assert (Hsr : sr_reads s = sr_reads s0) by reflexivity.
  assert (Hdr : dr_reads s0 = dr_reads s) by reflexivity.
  clearbody s0.
  destruct fm; [| | congruence]; simpl in Hb |- *.
  - assert (Hw : write_data data (Z.to_nat dl) 0 s0
                 = Done tt (logged (transfer IndirectWrite data dl 0) s0)).
    { unfold transfer. destruct Hb as [E | (buf & -> & Hle)].
      - rewrite E. simpl. rewrite logged_nil. reflexivity.
      - rewrite write_data_returns by lia. reflexivity. }
    unfold bind. rewrite Hw. unfold ret.
    rewrite (while_BUSY_returns j fuel
               (logged (transfer IndirectWrite data dl 0) s0)
               (clears_after_sr j s _ Hsr Hc) Hj).
    reflexivity.
  - assert (Hr : read_data data (Z.to_nat dl) 0 s0
                 = Done (received IndirectRead data dl (dr_reads s))
                        (after_fetches (Z.to_nat dl) s0)).
    { destruct Hb as [E | (buf & -> & Hle)].
      - unfold received. rewrite E. simpl. unfold ret, after_fetches. simpl.
        rewrite Nat.add_0_r, app_nil_r, Controller_eta.
        destruct data; reflexivity.
      - destruct (read_data_returns (Z.to_nat dl) 0 buf s0) as [d Hd]; [lia |].
        rewrite Hd. f_equal.
        apply read_data_Done in Hd. destruct Hd as (_ & -> & _).
        rewrite Hdr. reflexivity. }
    unfold bind. rewrite Hr.
    rewrite (while_BUSY_returns j fuel (after_fetches (Z.to_nat dl) s0)
               (clears_after_sr j s _ Hsr Hc) Hj).
    reflexivity.
Qed.

(** In memory-mapped mode a transaction returns at once, whatever the
    fuel and whatever SR would answer. *)
Lemma send_command_full_MemoryMapped fuel op c a dc data dl s :
  send_command_full fuel MemoryMapped op c a dc data dl s
  = Done data (sent MemoryMapped op c a dc data dl 0 s).
Proof.
  rewrite send_command_full_setup. unfold sent.
  rewrite after_polls_0. reflexivity.
Qed.

(** While the controller stays busy, an indirect transaction does not
    return. *)
Lemma send_command_full_stuck fuel fm op c a dc data dl s :
  fm <> MemoryMapped ->
  (forall j, SR_BUSY hw (sr_reads s + j) = true) ->
  forall d s', send_command_full fuel fm op c a dc data dl s <> Done d s'.
Proof.
  intros Hfm Hbusy d s' H.
  apply send_command_full_Done in H. destruct H as (k & _ & _ & _ & Hk).
  destruct fm; [| | congruence];
    destruct Hk as (j & _ & _ & [_ Hclear]);
    rewrite Hbusy in Hclear; discriminate.
Qed.

(** ** Projections of the trace of a transaction *)

Lemma flat_map_io {B : Type} (f : Access -> list B) :
  (forall e, is_io e = true -> f e = []) ->
  forall l, Forall (fun e => is_io e = true) l -> flat_map f l = [].
Proof.
  intros Hf l Hl. induction Hl as [| e l He _ IH]; simpl.
  - reflexivity.
  - rewrite (Hf e He), IH. reflexivity.
Qed.

Lemma polls_io from n : Forall (fun e => is_io e = true) (polls from n).
Proof. unfold polls. apply Forall_map, Forall_forall. reflexivity. Qed.

Lemma transfer_io fm data dl from :
  Forall (fun e => is_io e = true) (transfer fm data dl from).
Proof.
  destruct fm; simpl; [| | constructor];
    apply Forall_map, Forall_forall; reflexivity.
Qed.

Lemma ccr_writes_io l :
  Forall (fun e => is_io e = true) l -> ccr_writes l = [].
Proof.
  apply flat_map_io. intros e He. destruct e; (discriminate || reflexivity).
Qed.

Lemma dlr_writes_io l :
  Forall (fun e => is_io e = true) l -> dlr_writes l = [].
Proof.
  apply flat_map_io. intros e He. destruct e; (discriminate || reflexivity).
Qed.

Lemma ar_writes_io l :
  Forall (fun e => is_io e = true) l -> ar_writes l = [].
Proof.
  apply flat_map_io. intros e He. destruct e; (discriminate || reflexivity).
Qed.

Lemma ccr_writes_sent fm op c a dc data dl k s :
  ccr_writes (trace (sent fm op c a dc data dl k s))
  = ccr_writes (trace s) ++ [command_ccr fm op c a dc data].
Proof.
  rewrite sent_trace. unfold ccr_writes. rewrite !flat_map_app.
  rewrite (ccr_writes_io _ (transfer_io _ _ _ _)), (ccr_writes_io _ (polls_io _ _)).
  unfold setup. destruct (a =? 0); reflexivity.
Qed.

Lemma commands_sent fm op c a dc data dl k s :
  commands (trace (sent fm op c a dc data dl k s))
  = commands (trace s) ++ [Some c].
Proof.
  unfold commands. rewrite ccr_writes_sent, map_app. reflexivity.
Qed.

Lemma dlr_writes_sent fm op c a dc data dl k s :
  dlr_writes (trace (sent fm op c a dc data dl k s))
  = dlr_writes (trace s) ++ [if 0 <? dl then dl - 1 else 0].
Proof.
  rewrite sent_trace. unfold dlr_writes. rewrite !flat_map_app.
  rewrite (dlr_writes_io _ (transfer_io _ _ _ _)), (dlr_writes_io _ (polls_io _ _)).
  unfold setup. destruct (a =? 0); reflexivity.
Qed.

Lemma ar_writes_sent fm op c a dc data dl k s :
  ar_writes (trace (sent fm op c a dc data dl k s))
  = ar_writes (trace s) ++ (if a =? 0 then [] else [a]).
Proof.
  rewrite sent_trace. unfold ar_writes. rewrite !flat_map_app.
  rewrite (ar_writes_io _ (transfer_io _ _ _ _)), (ar_writes_io _ (polls_io _ _)).
  unfold setup. destruct (a =? 0); reflexivity.
Qed.

(** ** The wrappers *)

Lemma send_command_Done fuel c s u s' :
  send_command fuel c s = Done u s' ->
  exists j, (j < fuel)%nat /\ clears_after j s /\
    s' = sent IndirectWrite DefaultOperatingMode c 0 0 None 0 (S j) s.
Proof.
  unfold send_command. intros H.
  apply bind_Done in H. destruct H as (d & s1 & H1 & H2).
  injection H2 as _ <-.
  apply send_command_full_Done in H1.
  destruct H1 as (k & -> & _ & _ & j & -> & Hj & Hc). eauto.
Qed.

Lemma send_command_returns fuel c s j :
  clears_after j s -> (j < fuel)%nat ->
  send_command fuel c s
  = Done tt (sent IndirectWrite DefaultOperatingMode c 0 0 None 0 (S j) s).
Proof.
  intros Hc Hj. unfold send_command, bind.
  rewrite (send_command_full_returns fuel _ _ _ _ _ _ _ s j);
    try assumption; [reflexivity | left; reflexivity | discriminate].
Qed.

Lemma send_command_single_Done fuel c s u s' :
  send_command_single fuel c s = Done u s' ->
  exists j, (j < fuel)%nat /\ clears_after j s /\
    s' = sent IndirectWrite Single c 0 0 None 0 (S j) s.
Proof.
  unfold send_command_single. intros H.
  apply bind_Done in H. destruct H as (d & s1 & H1 & H2).
  injection H2 as _ <-.
  apply send_command_full_Done in H1.
  destruct H1 as (k & -> & _ & _ & j & -> & Hj & Hc). eauto.
Qed.

Lemma send_command_single_returns fuel c s j :
  clears_after j s -> (j < fuel)%nat ->
  send_command_single fuel c s
  = Done tt (sent IndirectWrite Single c 0 0 None 0 (S j) s).
Proof.
  intros Hc Hj. unfold send_command_single, bind.
  rewrite (send_command_full_returns fuel _ _ _ _ _ _ _ s j);
    try assumption; [reflexivity | left; reflexivity | discriminate].
Qed.

Lemma set_as_memory_mapped_returns fuel s :
  set_as_memory_mapped fuel s
  = Done tt (sent MemoryMapped DefaultOperatingMode ReadData 0 0 None 0 0 s).
Proof.
  unfold set_as_memory_mapped, bind.
  rewrite send_command_full_MemoryMapped. reflexivity.
Qed.

Lemma poll_Done fuel v s v' s' :
  poll fuel v s = Done v' s' ->
  exists j, (j < fuel)%nat /\ clears_after j s /\
    s' = status_read v (S j) s /\ v' = status_at (dr_reads s).
Proof.
  unfold poll, send_read_command. intros H.
  apply bind_Done in H. destruct H as (d & s1 & H1 & H2).
  apply send_command_full_Done in H1.
  destruct H1 as (k & -> & -> & _ & j & -> & Hj & Hc).
  simpl in H2. injection H2 as <- <-.
  exists j. split; [exact Hj | split; [exact Hc | split; reflexivity]].
Qed.

Lemma poll_returns fuel v s j :
  clears_after j s -> (j < fuel)%nat ->
  poll fuel v s = Done (status_at (dr_reads s)) (status_read v (S j) s).
Proof.
  intros Hc Hj. unfold poll, send_read_command, bind.
  rewrite (send_command_full_returns fuel _ _ _ _ _ _ _ s j);
    try assumption; [reflexivity | | discriminate].
  right. exists (Register16_bytes v). split; [reflexivity |]. simpl. lia.
Qed.

(** ** The wait for the flash chip *)

Lemma status_read_dr_reads v k s :
  dr_reads (status_read v k s) = (dr_reads s + 2)%nat.
Proof. unfold status_read. rewrite sent_dr_reads. reflexivity. Qed.

Lemma status_read_commands v k s :
  commands (trace (status_read v k s))
  = commands (trace s) ++ [Some ReadStatusRegister].
Proof. unfold status_read. apply commands_sent. Qed.

Lemma status_read_trace v k s :
  exists evs, trace (status_read v k s) = trace s ++ evs.
Proof. unfold status_read. rewrite sent_trace. eauto. Qed.

(** What [wait] has done when it returns: [n] status reads found the chip
    busy, the next one found it ready, and there was no other command. *)
Lemma wait_loop_Done : forall fuel v s u s',
  wait_loop fuel v s = Done u s' ->
  exists n,
    (n < fuel)%nat /\
    (forall i, (i < n)%nat -> chip_busy (dr_reads s + 2 * i) = true) /\
    chip_busy (dr_reads s + 2 * n) = false /\
    dr_reads s' = (dr_reads s + 2 * S n)%nat /\
    commands (trace s')
    = commands (trace s) ++ repeat (Some ReadStatusRegister) (S n) /\
    functionalModeOf s' = Some IndirectRead /\
    exists evs, trace s' = trace s ++ evs.
Proof.
  induction fuel as [| fuel IH]; intros v s u s' H; simpl in H.
  - discriminate.
  - apply bind_Done in H. destruct H as (v1 & s1 & H1 & H2).
    apply poll_Done in H1. destruct H1 as (j & Hj & Hc & -> & ->).
    destruct (getBUSY (status_at (dr_reads s))) eqn:Hb.
    + apply IH in H2.
      destruct H2 as (n & Hn & Hbusy & Hclear & Hdr & Hcmd & Hfm & evs & Htr).
      rewrite status_read_dr_reads in Hbusy, Hclear, Hdr.
      rewrite status_read_commands in Hcmd.
      exists (S n). split; [lia |]. split; [| split; [| split; [| split; [| split]]]].
      * intros [| i] Hi.
        -- rewrite Nat.mul_0_r, Nat.add_0_r. exact Hb.
        -- replace (dr_reads s + 2 * S i)%nat
             with (dr_reads s + 2 + 2 * i)%nat by lia.
           apply Hbusy. lia.
      * replace (dr_reads s + 2 * S n)%nat
          with (dr_reads s + 2 + 2 * n)%nat by lia.
        exact Hclear.
      * rewrite Hdr. lia.
      * rewrite Hcmd, <- app_assoc. reflexivity.
      * exact Hfm.
      * destruct (status_read_trace v (S j) s) as [evs0 E].
        exists (evs0 ++ evs). rewrite Htr, E, app_assoc. reflexivity.
    + injection H2 as _ <-.
      exists O. split; [lia |]. split; [| split; [| split; [| split; [| split]]]].
      * intros i Hi. lia.
      * rewrite Nat.mul_0_r, Nat.add_0_r. exact Hb.
      * rewrite status_read_dr_reads. lia.
      * apply status_read_commands.
      * unfold functionalModeOf, status_read. rewrite sent_CCR. reflexivity.
      * apply status_read_trace.
Qed.

(** [wait] returns, given fuel enough, when the chip reports ready at the
    status read number [n] and the controller settles after each read. *)
Lemma wait_loop_returns : settles -> forall n v s,
  (forall i, (i < n)%nat -> chip_busy (dr_reads s + 2 * i) = true) ->
  chip_busy (dr_reads s + 2 * n) = false ->
  exists F s', forall fuel, (F <= fuel)%nat -> wait_loop fuel v s = Done tt s'.
Proof.
  intros Hsettles. induction n as [| n IH]; intros v s Hbusy Hclear.
  - destruct (Hsettles (sr_reads s)) as (j & Hj1 & Hj2).
    exists (S (S j)), (status_read v (S j) s). intros fuel Hfuel.
    destruct fuel as [| fuel]; [lia |]. simpl. unfold bind.
    rewrite (poll_returns fuel v s j (conj Hj1 Hj2)) by lia.
    rewrite Nat.mul_0_r, Nat.add_0_r in Hclear. unfold chip_busy in Hclear.
    rewrite Hclear. reflexivity.
  - destruct (Hsettles (sr_reads s)) as (j & Hj1 & Hj2).
    destruct (IH (status_at (dr_reads s)) (status_read v (S j) s))
      as (F & s' & HF).
    + intros i Hi. rewrite status_read_dr_reads.
      replace (dr_reads s + 2 + 2 * i)%nat
        with (dr_reads s + 2 * S i)%nat by lia.
      apply Hbusy. lia.
    + rewrite status_read_dr_reads.
      replace (dr_reads s + 2 + 2 * n)%nat
        with (dr_reads s + 2 * S n)%nat by lia.
      exact Hclear.
    + exists (S (Nat.max F (S j))), s'. intros fuel Hfuel.
      destruct fuel as [| fuel]; [lia |]. simpl. unfold bind.
      rewrite (poll_returns fuel v s j (conj Hj1 Hj2)) by lia.
      assert (Hb : chip_busy (dr_reads s + 2 * 0) = true) by (apply Hbusy; lia).
      rewrite Nat.mul_0_r, Nat.add_0_r in Hb. unfold chip_busy in Hb.
      rewrite Hb. apply HF. lia.
Qed.

(** While the chip keeps reporting busy, [wait] does not return. *)
Lemma wait_loop_stuck fuel v s :
  (forall i, chip_busy (dr_reads s + 2 * i) = true) ->
  forall u s', wait_loop fuel v s <> Done u s'.
Proof.
  intros Hbusy u s' H. apply wait_loop_Done in H.
  destruct H as (n & _ & _ & Hclear & _). rewrite Hbusy in Hclear.
  discriminate.
Qed.

(** BUSY is bit 0 of the first byte of the status read. *)
Lemma chip_busy_bit0 from : chip_busy from = Z.testbit (DR hw from) 0.
Proof.
  unfold chip_busy, getBUSY, status_at.
  rewrite Z.add_bit0.
  change 256 with (2 ^ 8).
  rewrite Z.mod_pow2_bits_low by lia.
  rewrite (Z.mul_comm (2 ^ 8)), Z.mul_pow2_bits_low by lia.
  apply xorb_false_r.
Qed.

(** ** The transaction builder *)

(** C7: a transaction in a functional mode other than MemoryMapped returns
    only after it has read the controller's BUSY bit clear, having polled it
    without a break until then (so it never returns while BUSY stays set,
    and does return once BUSY falls); a MemoryMapped transaction returns at
    once, without reading BUSY at all. *)
Theorem send_command_full_waits_unless_memory_mapped
    fuel fm op c a dc data dl s :
  (fm <> MemoryMapped ->
     (forall d s',
        send_command_full fuel fm op c a dc data dl s = Done d s' ->
        exists j,
          (j < fuel)%nat /\ clears_after j s /\
          sr_reads s' = (sr_reads s + S j)%nat /\
          exists before, trace s' = before ++ polls (sr_reads s) (S j)) /\
     ((forall j, SR_BUSY hw (sr_reads s + j) = true) ->
      forall d s', send_command_full fuel fm op c a dc data dl s <> Done d s') /\
     (forall j,
        in_bounds fm data dl -> clears_after j s -> (j < fuel)%nat ->
        exists d s', send_command_full fuel fm op c a dc data dl s = Done d s')) /\
  (fm = MemoryMapped ->
     exists s',
       (forall fuel', send_command_full fuel' fm op c a dc data dl s = Done data s') /\
       sr_reads s' = sr_reads s /\
       trace s' = trace s ++ setup (command_ccr fm op c a dc data) a dl).
Proof.
  split.
  - intros Hfm. split; [| split].
    + intros d s' H. apply send_command_full_Done in H.
      destruct H as (k & -> & _ & _ & Hk).
      assert (Hj : exists j, k = S j /\ (j < fuel)%nat /\ clears_after j s)
        by (destruct fm; [exact Hk | exact Hk | congruence]).
      destruct Hj as (j & -> & Hj & Hc).
      exists j. split; [exact Hj |]. split; [exact Hc |].
      split; [apply sent_sr_reads |].
      rewrite sent_trace.
      exists (trace s ++ setup (command_ccr fm op c a dc data) a dl
                      ++ transfer fm data dl (dr_reads s)).
      rewrite <- !app_assoc. reflexivity.
    + apply send_command_full_stuck. exact Hfm.
    + intros j Hb Hc Hj. eexists. eexists.
      apply send_command_full_returns; eassumption.
  - intros ->.
    exists (sent MemoryMapped op c a dc data dl 0 s).
    split; [| split].
    + intros fuel'. apply send_command_full_MemoryMapped.
    + rewrite sent_sr_reads. lia.
    + rewrite sent_trace. simpl. rewrite !app_nil_r. reflexivity.
Qed.

(** C8, as the code has it: the address phase is enabled, with the chosen
    width and three address bytes, exactly when the address is not 0 or the
    functional mode is MemoryMapped; the address is written to the address
    register exactly when it is not 0.  An address of 0 stands for "no
    address": the register is then left untouched. *)
Theorem send_command_full_address_phase
    fuel fm op c a dc data dl s d s' :
  send_command_full fuel fm op c a dc data dl s = Done d s' ->
  ccr_writes (trace s') = ccr_writes (trace s) ++ [QUADSPI_CCR s'] /\
  (a <> 0 \/ fm = MemoryMapped ->
     ADMODE (QUADSPI_CCR s') = Some op /\
     ADSIZE (QUADSPI_CCR s') = Some ThreeBytes) /\
  (a = 0 /\ fm <> MemoryMapped ->
     ADMODE (QUADSPI_CCR s') = None /\ ADSIZE (QUADSPI_CCR s') = None) /\
  (a <> 0 ->
     ar_writes (trace s') = ar_writes (trace s) ++ [a] /\ QUADSPI_AR s' = a) /\
  (a = 0 ->
     ar_writes (trace s') = ar_writes (trace s) /\
     QUADSPI_AR s' = QUADSPI_AR s).
Proof.
  intros H. apply send_command_full_Done in H.
  destruct H as (k & -> & _ & _ & _).
  rewrite ccr_writes_sent, ar_writes_sent, sent_CCR, sent_AR.
  unfold command_ccr. simpl.
  split; [reflexivity |]. split; [| split; [| split]].
  - intros [Ha | ->].
    + apply Z.eqb_neq in Ha. rewrite Ha. auto.
    + rewrite orb_true_r. auto.
  - intros [-> Hfm]. destruct fm; [auto | auto | congruence].
  - intros Ha. apply Z.eqb_neq in Ha. rewrite Ha. auto.
  - intros ->. simpl. rewrite app_nil_r. auto.
Qed.

(** C10: the data-length register receives dataLength - 1 when dataLength
    is positive and 0 when it is 0, and nothing else is written to it; so
    a transaction of 0 bytes and one of 1 byte leave the same value in
    it. *)
Theorem send_command_full_data_length fuel fm op c a dc s :
  (forall data dl d s',
     send_command_full fuel fm op c a dc data dl s = Done d s' ->
     (0 < dl -> QUADSPI_DLR s' = dl - 1 /\
                dlr_writes (trace s') = dlr_writes (trace s) ++ [dl - 1]) /\
     (dl = 0 -> QUADSPI_DLR s' = 0 /\
                dlr_writes (trace s') = dlr_writes (trace s) ++ [0])) /\
  (forall data0 data1 d0 d1 s0 s1,
     send_command_full fuel fm op c a dc data0 0 s = Done d0 s0 ->
     send_command_full fuel fm op c a dc data1 1 s = Done d1 s1 ->
     QUADSPI_DLR s0 = QUADSPI_DLR s1 /\
     dlr_writes (trace s0) = dlr_writes (trace s1)).
Proof.
  split.
  - intros data dl d s' H. apply send_command_full_Done in H.
    destruct H as (k & -> & _ & _ & _).
    rewrite sent_DLR, dlr_writes_sent.
    split.
    + intros Hdl. apply Z.ltb_lt in Hdl. rewrite Hdl. auto.
    + intros ->. auto.
  - intros data0 data1 d0 d1 s0 s1 H0 H1.
    apply send_command_full_Done in H0, H1.
    destruct H0 as (k0 & -> & _ & _ & _). destruct H1 as (k1 & -> & _ & _ & _).
    rewrite !sent_DLR, !dlr_writes_sent. auto.
Qed.

(** ** The operations *)

Lemma then_memory_mapped (c : M unit) fuel s u s' :
  (c ;; set_as_memory_mapped fuel) s = Done u s' ->
  functionalModeOf s' = Some MemoryMapped.
Proof.
  intros H. apply bind_Done in H. destruct H as (x & s1 & _ & H).
  rewrite set_as_memory_mapped_returns in H. injection H as _ <-.
  unfold functionalModeOf. rewrite sent_CCR. reflexivity.
Qed.

(** C1: when MassErase, EraseSector or WriteMemory returns, the
    controller's functional mode is MemoryMapped: each of them has one way
    out, and it goes through [set_as_memory_mapped]. *)
Theorem operations_end_memory_mapped fuel source destination length s u s' :
  (MassErase fuel s = Done u s' -> functionalModeOf s' = Some MemoryMapped) /\
  (EraseSector fuel s = Done u s' -> functionalModeOf s' = Some MemoryMapped) /\
  (WriteMemory fuel source destination length s = Done u s' ->
   functionalModeOf s' = Some MemoryMapped).
Proof.
  split; [| split]; intros H.
  - unfold MassErase in H.
    apply bind_Done in H. destruct H as (x1 & s1 & _ & H).
    apply bind_Done in H. destruct H as (x2 & s2 & _ & H).
    eapply then_memory_mapped. exact H.
  - unfold EraseSector in H.
    apply bind_Done in H. destruct H as (x1 & s1 & _ & H).
    eapply then_memory_mapped. exact H.
  - unfold WriteMemory in H.
    apply bind_Done in H. destruct H as (x1 & s1 & _ & H).
    eapply then_memory_mapped. exact H.
Qed.

(** ** The busy-wait protocol *)

Lemma while_BUSY_defined : forall fuel s, while_BUSY fuel s <> Undefined.
Proof.
  induction fuel as [| fuel IH]; intros s; simpl.
  - discriminate.
  - unfold bind, SR_getBUSY. destruct (SR_BUSY hw (sr_reads s)).
    + apply IH.
    + discriminate.
Qed.

Lemma poll_defined fuel v s : poll fuel v s <> Undefined.
Proof.
  unfold poll, send_read_command, bind.
  rewrite send_command_full_setup. unfold bind.
  change (Z.to_nat sizeof_Register16) with 2%nat. simpl.
  match goal with
  | |- context [while_BUSY fuel ?s0] =>
      pose proof (while_BUSY_defined fuel s0) as Hw;
      destruct (while_BUSY fuel s0)
  end; [discriminate | discriminate | congruence].
Qed.

Lemma wait_loop_defined : forall fuel v s, wait_loop fuel v s <> Undefined.
Proof.
  induction fuel as [| fuel IH]; intros v s; simpl.
  - discriminate.
  - unfold bind. pose proof (poll_defined fuel v s) as Hp.
    destruct (poll fuel v s) as [v' s' | |];
      [| discriminate | congruence].
    destruct (getBUSY v'); [apply IH | discriminate].
Qed.

(** C2, as the code has it: [wait] takes no bound on the number of status
    reads and has no Timeout result.  Provided the controller settles after
    each transaction, it returns as soon as a status read finds the chip's
    busy bit clear, after exactly n+1 status reads when the first n find it
    set; when the busy bit never clears it never returns: whatever the
    fuel, the loop is still running. *)
Theorem wait_returns_when_chip_ready s :
  (forall n,
     settles ->
     (forall i, (i < n)%nat -> chip_busy (dr_reads s + 2 * i) = true) ->
     chip_busy (dr_reads s + 2 * n) = false ->
     exists F s',
       (forall fuel, (F <= fuel)%nat -> wait fuel s = Done tt s') /\
       dr_reads s' = (dr_reads s + 2 * S n)%nat /\
       commands (trace s')
       = commands (trace s) ++ repeat (Some ReadStatusRegister) (S n)) /\
  ((forall i, chip_busy (dr_reads s + 2 * i) = true) ->
   forall fuel, wait fuel s = Spinning).
Proof.
  split.
  - intros n Hsettles Hbusy Hclear.
    destruct (wait_loop_returns Hsettles n 0 s Hbusy Hclear) as (F & s' & HF).
    exists F, s'. split; [exact HF |].
    pose proof (HF F (Nat.le_refl F)) as H.
    apply wait_loop_Done in H.
    destruct H as (n' & _ & Hbusy' & Hclear' & Hdr & Hcmd & _).
    assert (n' = n) as ->.
    { destruct (Nat.lt_trichotomy n' n) as [Hlt | [E | Hgt]].
      - rewrite (Hbusy n' Hlt) in Hclear'. discriminate.
      - exact E.
      - rewrite (Hbusy' n Hgt) in Hclear. discriminate. }
    auto.
  - intros Hbusy fuel. unfold wait.
    pose proof (wait_loop_stuck fuel 0 s Hbusy) as Hs.
    pose proof (wait_loop_defined fuel 0 s) as Hd.
    destruct (wait_loop fuel 0 s) as [u s' | |];
      [exfalso; eapply Hs; reflexivity | reflexivity | congruence].
Qed.

(** C9, as the code has it: a polling step is an indirect-read
    ReadStatusRegister transaction, without address, whose payload is the
    two bytes of the 16-bit [statusRegister] (the data-length register
    receives 1, DR is read twice); the loop goes on exactly when bit 0 of
    the first byte read is set. *)
Theorem poll_reads_status_register fuel v s v' s' :
  poll fuel v s = Done v' s' ->
  QUADSPI_CCR s'
  = mkCCR (Some IndirectRead) (Some DefaultOperatingMode) 0 None None
          (Some DefaultOperatingMode) (Some ReadStatusRegister) /\
  QUADSPI_DLR s' = sizeof_Register16 - 1 /\
  dr_reads s' = (dr_reads s + 2)%nat /\
  (exists k,
     trace s'
     = trace s ++ [SetDLR 1; SetCCR (QUADSPI_CCR s');
                    GetDR (DR hw (dr_reads s)); GetDR (DR hw (S (dr_reads s)))]
               ++ polls (sr_reads s) k) /\
  getBUSY v' = Z.testbit (DR hw (dr_reads s)) 0 /\
  wait_loop (S fuel) v s
  = if Z.testbit (DR hw (dr_reads s)) 0 then wait_loop fuel v' s'
    else Done tt s'.
Proof.
  intros H. pose proof H as Hp. apply poll_Done in H.
  destruct H as (j & Hj & Hc & -> & ->).
  fold (chip_busy (dr_reads s)). rewrite <- chip_busy_bit0.
  split; [| split; [| split; [| split; [| split]]]].
  - unfold status_read. rewrite sent_CCR. reflexivity.
  - unfold status_read. rewrite sent_DLR. reflexivity.
  - apply status_read_dr_reads.
  - exists (S j). unfold status_read. rewrite sent_trace, sent_CCR.
    reflexivity.
  - reflexivity.
  - simpl. unfold bind. rewrite Hp. unfold chip_busy.
    destruct (getBUSY (status_at (dr_reads s))); reflexivity.
Qed.

(** ** Erasing a sector *)

(** C5, as the code has it: [EraseSector] takes no address and checks no
    alignment; it rejects no call, and the first thing a call does is to
    send WriteEnable. *)
Theorem EraseSector_starts_with_WriteEnable fuel s u s' :
  EraseSector fuel s = Done u s' ->
  exists rest,
    trace s'
    = trace s ++ SetDLR 0
              :: SetCCR (mkCCR (Some IndirectWrite) None 0 None None
                               (Some DefaultOperatingMode) (Some WriteEnable))
              :: rest.
Proof.
  unfold EraseSector. intros H.
  apply bind_Done in H. destruct H as (x1 & s1 & H1 & H).
  apply bind_Done in H. destruct H as (x2 & s2 & H2 & H).
  apply send_command_Done in H1. destruct H1 as (j & _ & _ & ->).
  apply wait_loop_Done in H2.
  destruct H2 as (n & _ & _ & _ & _ & _ & _ & evs & Htr).
  rewrite set_as_memory_mapped_returns in H. injection H as _ <-.
  rewrite sent_trace, Htr, sent_trace. simpl.
  rewrite <- !app_assoc. simpl. eexists. reflexivity.
Qed.

(** ** Initialisation *)

Lemma initGPIO_from_returns : forall pins s,
  initGPIO_from pins s = Done tt (logged (gpio_accesses pins) s).
Proof.
  induction pins as [| g rest IH]; intros s; simpl.
  - rewrite logged_nil. reflexivity.
  - unfold bind, access. rewrite IH. unfold logged, record. simpl.
    rewrite <- !app_assoc. reflexivity.
Qed.

Lemma initQSPI_returns s : initQSPI s = Done tt (logged qspi_accesses s).
Proof.
  unfold initQSPI, bind, access, logged, record, qspi_accesses. simpl.
  rewrite <- !app_assoc. reflexivity.
Qed.

Lemma ccr_writes_gpio pins : ccr_writes (gpio_accesses pins) = [].
Proof. induction pins as [| g rest IH]; simpl; auto. Qed.

Lemma init_initChip fuel s :
  init fuel s
  = initChip fuel (logged (gpio_accesses QSPIPins ++ qspi_accesses) s).
Proof.
  unfold init, initGPIO, bind.
  rewrite initGPIO_from_returns, initQSPI_returns, logged_logged.
  reflexivity.
Qed.

Lemma ccr_writes_init_prefix s :
  ccr_writes (trace (logged (gpio_accesses QSPIPins ++ qspi_accesses) s))
  = ccr_writes (trace s).
Proof.
  unfold logged. simpl. unfold ccr_writes. rewrite !flat_map_app.
  fold (ccr_writes (gpio_accesses QSPIPins)). rewrite ccr_writes_gpio.
  simpl. rewrite app_nil_r. reflexivity.
Qed.

(** C6: with Quad the default operating mode, [init] writes two commands to
    CCR: first EnableQPI, once, with the instruction on a single line and no
    other phase, then the memory-mapped ReadData, the first Quad-width
    transaction; it returns, once the controller's BUSY bit falls, in
    MemoryMapped mode.  With Single the default, it writes the
    memory-mapped ReadData only, and no EnableQPI. *)
Theorem init_enables_QPI_in_single_mode fuel s :
  (DefaultOperatingMode = Quad ->
     (forall u s',
        init fuel s = Done u s' ->
        ccr_writes (trace s')
        = ccr_writes (trace s)
          ++ [mkCCR (Some IndirectWrite) None 0 None None
                    (Some Single) (Some EnableQPI);
              mkCCR (Some MemoryMapped) (Some Quad) 0 (Some ThreeBytes)
                    (Some Quad) (Some Quad) (Some ReadData)] /\
        functionalModeOf s' = Some MemoryMapped) /\
     (forall j, clears_after j s -> (j < fuel)%nat ->
                exists s', init fuel s = Done tt s')) /\
  (DefaultOperatingMode = Single ->
     exists s',
       init fuel s = Done tt s' /\
       ccr_writes (trace s')
       = ccr_writes (trace s)
         ++ [mkCCR (Some MemoryMapped) (Some Single) 0 (Some ThreeBytes)
                   (Some Single) (Some Single) (Some ReadData)] /\
       functionalModeOf s' = Some MemoryMapped).
Proof.
  rewrite init_initChip. unfold initChip.
  split; intros E; rewrite E; simpl.
  - split.
    + intros u s' H.
      apply bind_Done in H. destruct H as (x & s1 & H1 & H).
      apply send_command_single_Done in H1. destruct H1 as (j & _ & _ & ->).
      rewrite set_as_memory_mapped_returns in H. injection H as _ <-.
      rewrite E. unfold functionalModeOf.
      rewrite sent_CCR, !ccr_writes_sent, ccr_writes_init_prefix.
      rewrite <- app_assoc. split; reflexivity.
    + intros j Hc Hj. unfold bind.
      rewrite (send_command_single_returns fuel EnableQPI _ j);
        [| eapply clears_after_sr; [| exact Hc]; reflexivity | exact Hj].
      rewrite set_as_memory_mapped_returns. eauto.
  - unfold bind, ret. rewrite set_as_memory_mapped_returns.
    eexists. split; [reflexivity |].
    rewrite E. unfold functionalModeOf.
    rewrite sent_CCR, ccr_writes_sent, ccr_writes_init_prefix.
    split; reflexivity.
Qed.

(** The commands of the three operations, for any call that returns. *)
Lemma wait_then_memory_mapped_commands fuel s u s' :
  (wait fuel ;; set_as_memory_mapped fuel) s = Done u s' ->
  exists n,
    commands (trace s')
    = commands (trace s) ++ repeat (Some ReadStatusRegister) (S n)
                         ++ [Some ReadData].
Proof.
  intros H. apply bind_Done in H. destruct H as (x & s1 & H1 & H).
  apply wait_loop_Done in H1.
  destruct H1 as (n & _ & _ & _ & _ & Hcmd & _).
  rewrite set_as_memory_mapped_returns in H. injection H as _ <-.
  exists n. rewrite commands_sent, Hcmd, <- app_assoc. reflexivity.
Qed.

Lemma MassErase_commands fuel s u s' :
  MassErase fuel s = Done u s' ->
  exists n,
    commands (trace s')
    = commands (trace s)
      ++ [Some WriteEnable; Some ChipErase]
      ++ repeat (Some ReadStatusRegister) (S n) ++ [Some ReadData].
Proof.
  unfold MassErase. intros H.
  apply bind_Done in H. destruct H as (x1 & s1 & H1 & H).
  apply bind_Done in H. destruct H as (x2 & s2 & H2 & H).
  apply send_command_Done in H1. destruct H1 as (j1 & _ & _ & ->).
  apply send_command_Done in H2. destruct H2 as (j2 & _ & _ & ->).
  apply wait_then_memory_mapped_commands in H. destruct H as (n & ->).
  exists n. rewrite !commands_sent, <- !app_assoc. reflexivity.
Qed.

Lemma EraseSector_commands fuel s u s' :
  EraseSector fuel s = Done u s' ->
  exists n,
    commands (trace s')
    = commands (trace s)
      ++ [Some WriteEnable]
      ++ repeat (Some ReadStatusRegister) (S n) ++ [Some ReadData].
Proof.
  unfold EraseSector. intros H.
  apply bind_Done in H. destruct H as (x1 & s1 & H1 & H).
  apply send_command_Done in H1. destruct H1 as (j1 & _ & _ & ->).
  apply wait_then_memory_mapped_commands in H. destruct H as (n & ->).
  exists n. rewrite !commands_sent, <- !app_assoc. reflexivity.
Qed.

Lemma WriteMemory_commands fuel source destination length s u s' :
  WriteMemory fuel source destination length s = Done u s' ->
  exists n,
    commands (trace s')
    = commands (trace s)
      ++ [Some WriteEnable]
      ++ repeat (Some ReadStatusRegister) (S n) ++ [Some ReadData].
Proof. apply EraseSector_commands. Qed.

(** The three operations do return, given fuel enough, on a device whose
    controller settles and whose chip reports ready at some status read. *)
Lemma send_command_settles c s :
  settles ->
  exists j, forall fuel, (j < fuel)%nat ->
    send_command fuel c s
    = Done tt (sent IndirectWrite DefaultOperatingMode c 0 0 None 0 (S j) s).
Proof.
  intros Hsettles. destruct (Hsettles (sr_reads s)) as (j & Hj1 & Hj2).
  exists j. intros fuel Hfuel.
  apply send_command_returns; [split; assumption | exact Hfuel].
Qed.

Lemma wait_then_memory_mapped_returns n s :
  settles ->
  (forall i, (i < n)%nat -> chip_busy (dr_reads s + 2 * i) = true) ->
  chip_busy (dr_reads s + 2 * n) = false ->
  exists F s', forall fuel, (F <= fuel)%nat ->
    (wait fuel ;; set_as_memory_mapped fuel) s = Done tt s'.
Proof.
  intros Hsettles Hbusy Hclear.
  destruct (wait_loop_returns Hsettles n 0 s Hbusy Hclear) as (F & s1 & HF).
  exists F, (sent MemoryMapped DefaultOperatingMode ReadData 0 0 None 0 0 s1).
  intros fuel Hfuel. unfold bind, wait. rewrite (HF fuel Hfuel).
  apply set_as_memory_mapped_returns.
Qed.

Lemma EraseSector_returns n s :
  settles ->
  (forall i, (i < n)%nat -> chip_busy (dr_reads s + 2 * i) = true) ->
  chip_busy (dr_reads s + 2 * n) = false ->
  exists F s', forall fuel, (F <= fuel)%nat -> EraseSector fuel s = Done tt s'.
Proof.
  intros Hsettles Hbusy Hclear.
  destruct (send_command_settles WriteEnable s Hsettles) as (j & Hj).
  set (s1 := sent IndirectWrite DefaultOperatingMode WriteEnable 0 0 None 0 (S j) s)
    in Hj.
  assert (Hdr : dr_reads s1 = dr_reads s)
    by (unfold s1; rewrite sent_dr_reads; lia).
  destruct (wait_then_memory_mapped_returns n s1 Hsettles) as (F & s' & HF).
  - rewrite Hdr. exact Hbusy.
  - rewrite Hdr. exact Hclear.
  - exists (Nat.max F (S j)), s'. intros fuel Hfuel.
    unfold EraseSector. unfold bind at 1. rewrite Hj by lia.
    apply HF. lia.
Qed.

Lemma WriteMemory_returns source destination length n s :
  settles ->
  (forall i, (i < n)%nat -> chip_busy (dr_reads s + 2 * i) = true) ->
  chip_busy (dr_reads s + 2 * n) = false ->
  exists F s', forall fuel, (F <= fuel)%nat ->
    WriteMemory fuel source destination length s = Done tt s'.
Proof. apply EraseSector_returns. Qed.

Lemma MassErase_returns n s :
  settles ->
  (forall i, (i < n)%nat -> chip_busy (dr_reads s + 2 * i) = true) ->
  chip_busy (dr_reads s + 2 * n) = false ->
  exists F s', forall fuel, (F <= fuel)%nat -> MassErase fuel s = Done tt s'.
Proof.
  intros Hsettles Hbusy Hclear.
  destruct (send_command_settles WriteEnable s Hsettles) as (j1 & Hj1).
  set (s1 := sent IndirectWrite DefaultOperatingMode WriteEnable 0 0 None 0 (S j1) s)
    in Hj1.
  destruct (send_command_settles ChipErase s1 Hsettles) as (j2 & Hj2).
  set (s2 := sent IndirectWrite DefaultOperatingMode ChipErase 0 0 None 0 (S j2) s1)
    in Hj2.
  assert (Hdr : dr_reads s2 = dr_reads s)
    by (unfold s2, s1; rewrite !sent_dr_reads; lia).
  destruct (wait_then_memory_mapped_returns n s2 Hsettles) as (F & s' & HF).
  - rewrite Hdr. exact Hbusy.
  - rewrite Hdr. exact Hclear.
  - exists (Nat.max F (Nat.max (S j1) (S j2))), s'. intros fuel Hfuel.
    unfold MassErase. unfold bind at 1. rewrite Hj1 by lia.
    unfold bind at 1. rewrite Hj2 by lia.
    apply HF. lia.
Qed.

(** ** The data phase *)

Lemma flat_map_map_nil {A B C : Type} (f : B -> list C) (g : A -> B) :
  (forall x, f (g x) = []) -> forall l, flat_map f (map g l) = [].
Proof.
  intros Hfg l. induction l as [| x l IH]; simpl.
  - reflexivity.
  - rewrite Hfg, IH. reflexivity.
Qed.

Lemma dr_writes_SetDR l : dr_writes (map SetDR l) = l.
Proof.
  induction l as [| b l IH].
  - reflexivity.
  - unfold dr_writes in *. simpl. f_equal. exact IH.
Qed.

Lemma dr_writes_setup r a dl : dr_writes (setup r a dl) = [].
Proof. unfold setup. destruct (a =? 0); reflexivity. Qed.

Lemma dr_writes_polls from n : dr_writes (polls from n) = [].
Proof. unfold dr_writes, polls. apply flat_map_map_nil. reflexivity. Qed.

Lemma dr_writes_fetches from n : dr_writes (fetches from n) = [].
Proof. unfold dr_writes, fetches. apply flat_map_map_nil. reflexivity. Qed.

Lemma dr_writes_sent fm op c a dc data dl k s :
  dr_writes (trace (sent fm op c a dc data dl k s))
  = dr_writes (trace s)
    ++ match fm with
       | IndirectWrite =>
           firstn (Z.to_nat dl) (match data with Some buf => buf | None => [] end)
       | _ => []
       end.
Proof.
  rewrite sent_trace. unfold dr_writes at 1. rewrite !flat_map_app.
  fold (dr_writes (trace s)).
  fold (dr_writes (setup (command_ccr fm op c a dc data) a dl)).
  rewrite dr_writes_setup.
  fold (dr_writes (polls (sr_reads s) k)). rewrite dr_writes_polls.
  rewrite app_nil_r. simpl. f_equal.
  destruct fm; simpl.
  - apply dr_writes_SetDR.
  - apply dr_writes_fetches.
  - reflexivity.
Qed.


(** X2: an indirect read that returns has popped the data register exactly
    dataLength times and stored the low byte of each word, in order, at the
    start of the buffer; the bytes of the buffer beyond dataLength are
    untouched, its length is unchanged, and nothing is written to the data
    register. *)
Theorem indirect_read_fills_buffer fuel c a buf dl s d s' :
  send_read_command fuel c a (Some buf) dl s = Done d s' ->
  (Z.to_nat dl <= length buf)%nat /\
  d = Some (fetched (dr_reads s) (Z.to_nat dl) ++ skipn (Z.to_nat dl) buf) /\
  (exists buf', d = Some buf' /\ length buf' = length buf /\
     forall i, (i < Z.to_nat dl)%nat ->
               nth_error buf' i = Some (DR hw (dr_reads s + i) mod 256)) /\
  dr_reads s' = (dr_reads s + Z.to_nat dl)%nat /\
  dr_writes (trace s') = dr_writes (trace s).
Proof.
  unfold send_read_command. intros H. apply send_command_full_Done in H.
  destruct H as (k & -> & -> & Hb & _).
  rewrite sent_dr_reads, dr_writes_sent, app_nil_r. simpl received.
  assert (Hle : (Z.to_nat dl <= length buf)%nat).
  { simpl in Hb. destruct Hb as [E | (b & E & Hle)]; [lia |].
    injection E as <-. exact Hle. }
  assert (Hlen : length (fetched (dr_reads s) (Z.to_nat dl)) = Z.to_nat dl).
  { unfold fetched. rewrite length_map, length_seq. reflexivity. }
  split; [exact Hle |]. split; [reflexivity |]. split; [| split; reflexivity].
  eexists. split; [reflexivity |]. split.
  - rewrite length_app, Hlen, length_skipn. lia.
  - intros i Hi. rewrite nth_error_app1 by lia.
    unfold fetched. rewrite nth_error_map, nth_error_nth' with (d := O)
      by (rewrite length_seq; exact Hi).
    rewrite seq_nth by exact Hi. reflexivity.
Qed.


(** X4: the order of the accesses of a transaction: the data length first,
    then CCR, then the address register when the address is not 0, then the
    data phase, and the polls of BUSY last (none in MemoryMapped mode, at
    least one otherwise); nothing comes in between. *)
Theorem send_command_full_access_order fuel fm op c a dc data dl s d s' :
  send_command_full fuel fm op c a dc data dl s = Done d s' ->
  exists k,
    trace s'
    = trace s
      ++ [SetDLR (QUADSPI_DLR s'); SetCCR (QUADSPI_CCR s')]
      ++ (if a =? 0 then [] else [SetAR a])
      ++ transfer fm data dl (dr_reads s)
      ++ polls (sr_reads s) k /\
    sr_reads s' = (sr_reads s + k)%nat /\
    (fm = MemoryMapped -> k = O) /\
    (fm <> MemoryMapped -> (0 < k)%nat).
Proof.
  intros H. apply send_command_full_Done in H.
  destruct H as (k & -> & _ & _ & Hk).
  exists k. rewrite sent_trace, sent_CCR, sent_DLR, sent_sr_reads.
  split; [reflexivity |]. split; [reflexivity |]. split.
  - intros ->. exact Hk.
  - intros Hfm. destruct fm; [| | congruence];
      destruct Hk as (j & -> & _); lia.
Qed.

(** X5: [set_as_memory_mapped] always returns, without reading the status
    or the data register: it leaves CCR set for a memory-mapped ReadData with
    three address bytes, every phase at the default width, the data length
    at 0 and the address register as it was.  Calling it again changes no
    register. *)
Theorem set_as_memory_mapped_total fuel s :
  exists s',
    set_as_memory_mapped fuel s = Done tt s' /\
    QUADSPI_CCR s'
    = mkCCR (Some MemoryMapped) (Some DefaultOperatingMode) 0 (Some ThreeBytes)
            (Some DefaultOperatingMode) (Some DefaultOperatingMode)
            (Some ReadData) /\
    QUADSPI_DLR s' = 0 /\
    QUADSPI_AR s' = QUADSPI_AR s /\
    sr_reads s' = sr_reads s /\ dr_reads s' = dr_reads s /\
    trace s' = trace s ++ [SetDLR 0; SetCCR (QUADSPI_CCR s')] /\
    forall fuel', exists s'',
      set_as_memory_mapped fuel' s' = Done tt s'' /\
      QUADSPI_CCR s'' = QUADSPI_CCR s' /\
      QUADSPI_DLR s'' = QUADSPI_DLR s' /\
      QUADSPI_AR s'' = QUADSPI_AR s'.
Proof.
  eexists. split; [apply set_as_memory_mapped_returns |].
  rewrite sent_CCR, sent_DLR, sent_AR, sent_sr_reads, sent_dr_reads, sent_trace.
  simpl. rewrite ?Nat.add_0_r, ?app_nil_r.
  repeat (split; [reflexivity |]).
  intros fuel'. eexists. split; [apply set_as_memory_mapped_returns |].
  rewrite sent_CCR, sent_DLR, sent_AR. simpl. auto.
Qed.

(** ** What the wait and the operations leave behind *)

Lemma status_read_registers v k s :
  QUADSPI_CCR (status_read v k s)
  = mkCCR (Some IndirectRead) (Some DefaultOperatingMode) 0 None None
          (Some DefaultOperatingMode) (Some ReadStatusRegister) /\
  QUADSPI_DLR (status_read v k s) = 1 /\
  QUADSPI_AR (status_read v k s) = QUADSPI_AR s.
Proof.
  unfold status_read. rewrite sent_CCR, sent_DLR, sent_AR. auto.
Qed.

Lemma status_read_writes v k s :
  dlr_writes (trace (status_read v k s)) = dlr_writes (trace s) ++ [1] /\
  ar_writes (trace (status_read v k s)) = ar_writes (trace s) /\
  dr_writes (trace (status_read v k s)) = dr_writes (trace s).
Proof.
  unfold status_read.
  rewrite dlr_writes_sent, ar_writes_sent, dr_writes_sent. simpl.
  rewrite ?app_nil_r. auto.
Qed.

Lemma instruction_only_effect op c k s :
  let s1 := sent IndirectWrite op c 0 0 None 0 k s in
  QUADSPI_AR s1 = QUADSPI_AR s /\
  dr_reads s1 = dr_reads s /\
  dlr_writes (trace s1) = dlr_writes (trace s) ++ [0] /\
  ar_writes (trace s1) = ar_writes (trace s) /\
  dr_writes (trace s1) = dr_writes (trace s).
Proof.
  cbv zeta.
  rewrite sent_AR, sent_dr_reads, dlr_writes_sent, ar_writes_sent, dr_writes_sent.
  simpl. rewrite ?app_nil_r, ?Nat.add_0_r. auto.
Qed.

Lemma memory_mapped_effect k s :
  let s1 := sent MemoryMapped DefaultOperatingMode ReadData 0 0 None 0 k s in
  QUADSPI_CCR s1
  = mkCCR (Some MemoryMapped) (Some DefaultOperatingMode) 0 (Some ThreeBytes)
          (Some DefaultOperatingMode) (Some DefaultOperatingMode)
          (Some ReadData) /\
  QUADSPI_DLR s1 = 0 /\
  QUADSPI_AR s1 = QUADSPI_AR s /\
  dr_reads s1 = dr_reads s /\
  dlr_writes (trace s1) = dlr_writes (trace s) ++ [0] /\
  ar_writes (trace s1) = ar_writes (trace s) /\
  dr_writes (trace s1) = dr_writes (trace s).
Proof.
  cbv zeta.
  rewrite sent_CCR, sent_DLR, sent_AR, sent_dr_reads,
    dlr_writes_sent, ar_writes_sent, dr_writes_sent.
  simpl. rewrite ?app_nil_r, ?Nat.add_0_r.
  repeat (split; [reflexivity |]). reflexivity.
Qed.

(** Everything [wait] has done when it returns. *)
Lemma wait_loop_effect : forall fuel v s u s',
  wait_loop fuel v s = Done u s' ->
  exists n,
    (forall i, (i < n)%nat -> chip_busy (dr_reads s + 2 * i) = true) /\
    chip_busy (dr_reads s + 2 * n) = false /\
    dr_reads s' = (dr_reads s + 2 * S n)%nat /\
    commands (trace s')
    = commands (trace s) ++ repeat (Some ReadStatusRegister) (S n) /\
    dlr_writes (trace s') = dlr_writes (trace s) ++ repeat 1 (S n) /\
    ar_writes (trace s') = ar_writes (trace s) /\
    dr_writes (trace s') = dr_writes (trace s) /\
    QUADSPI_CCR s'
    = mkCCR (Some IndirectRead) (Some DefaultOperatingMode) 0 None None
            (Some DefaultOperatingMode) (Some ReadStatusRegister) /\
    QUADSPI_DLR s' = 1 /\
    QUADSPI_AR s' = QUADSPI_AR s.
Proof.
  induction fuel as [| fuel IH]; intros v s u s' H; simpl in H.
  - discriminate.
  - apply bind_Done in H. destruct H as (v1 & s1 & H1 & H2).
    apply poll_Done in H1. destruct H1 as (j & Hj & Hc & -> & ->).
    destruct (status_read_registers v (S j) s) as (Rccr & Rdlr & Rar).
    destruct (status_read_writes v (S j) s) as (Wdlr & War & Wdr).
    destruct (getBUSY (status_at (dr_reads s))) eqn:Hb.
    + apply IH in H2.
      destruct H2 as (n & Hbusy & Hclear & Hdr & Hcmd & Hdlr & Har & Hdw
                      & Hccr & Hd & Ha).
      rewrite status_read_dr_reads in Hbusy, Hclear, Hdr.
      rewrite status_read_commands in Hcmd.
      rewrite Wdlr in Hdlr. rewrite War in Har. rewrite Wdr in Hdw.
      rewrite Rar in Ha.
      exists (S n).
      split; [| split; [| split; [| split; [| split; [| split; [| split]]]]]].
      * intros [| i] Hi.
        -- rewrite Nat.mul_0_r, Nat.add_0_r. exact Hb.
        -- replace (dr_reads s + 2 * S i)%nat
             with (dr_reads s + 2 + 2 * i)%nat by lia.
           apply Hbusy. lia.
      * replace (dr_reads s + 2 * S n)%nat
          with (dr_reads s + 2 + 2 * n)%nat by lia.
        exact Hclear.
      * rewrite Hdr. lia.
      * rewrite Hcmd, <- app_assoc. reflexivity.
      * rewrite Hdlr, <- app_assoc. reflexivity.
      * exact Har.
      * exact Hdw.
      * auto.
    + injection H2 as _ <-.
      exists O.
      split; [| split; [| split; [| split; [| split; [| split; [| split]]]]]].
      * intros i Hi. lia.
      * rewrite Nat.mul_0_r, Nat.add_0_r. exact Hb.
      * rewrite status_read_dr_reads. lia.
      * apply status_read_commands.
      * exact Wdlr.
      * exact War.
      * exact Wdr.
      * auto.
Qed.

(** X6: when [wait] returns, the controller is in IndirectRead mode, set up
    for the two-byte status read: the flash is not memory-mapped until
    [set_as_memory_mapped] is called.  The wait has written neither the
    address register nor the data register. *)
Theorem wait_leaves_indirect_read fuel s u s' :
  wait fuel s = Done u s' ->
  functionalModeOf s' = Some IndirectRead /\
  QUADSPI_CCR s'
  = mkCCR (Some IndirectRead) (Some DefaultOperatingMode) 0 None None
          (Some DefaultOperatingMode) (Some ReadStatusRegister) /\
  QUADSPI_DLR s' = 1 /\
  QUADSPI_AR s' = QUADSPI_AR s /\
  ar_writes (trace s') = ar_writes (trace s) /\
  dr_writes (trace s') = dr_writes (trace s).
Proof.
  unfold wait. intros H. apply wait_loop_effect in H.
  destruct H as (n & _ & _ & _ & _ & _ & Har & Hdw & Hccr & Hd & Ha).
  unfold functionalModeOf. rewrite Hccr.
  repeat (split; [assumption || reflexivity |]). assumption.
Qed.

(** What the common end of the three operations has done. *)
Lemma wait_then_memory_mapped_effect fuel s u s' :
  (wait fuel ;; set_as_memory_mapped fuel) s = Done u s' ->
  exists n,
    (forall i, (i < n)%nat -> chip_busy (dr_reads s + 2 * i) = true) /\
    chip_busy (dr_reads s + 2 * n) = false /\
    dr_reads s' = (dr_reads s + 2 * S n)%nat /\
    commands (trace s')
    = commands (trace s) ++ repeat (Some ReadStatusRegister) (S n)
                         ++ [Some ReadData] /\
    dlr_writes (trace s') = dlr_writes (trace s) ++ repeat 1 (S n) ++ [0] /\
    ar_writes (trace s') = ar_writes (trace s) /\
    dr_writes (trace s') = dr_writes (trace s) /\
    QUADSPI_CCR s'
    = mkCCR (Some MemoryMapped) (Some DefaultOperatingMode) 0 (Some ThreeBytes)
            (Some DefaultOperatingMode) (Some DefaultOperatingMode)
            (Some ReadData) /\
    QUADSPI_DLR s' = 0 /\
    QUADSPI_AR s' = QUADSPI_AR s.
Proof.
  intros H. apply bind_Done in H. destruct H as (x & s1 & H1 & H).
  apply wait_loop_effect in H1.
  destruct H1 as (n & Hbusy & Hclear & Hdr & Hcmd & Hdlr & Har & Hdw & _ & _ & Ha).
  rewrite set_as_memory_mapped_returns in H. injection H as _ <-.
  destruct (memory_mapped_effect 0 s1) as (Mccr & Md & Ma & Mdr & Mdlr & Mar & Mdw).
  exists n. rewrite commands_sent, Mccr, Md, Ma, Mdr, Mdlr, Mar, Mdw.
  rewrite Hcmd, Hdlr, Har, Hdw, Ha, Hdr, <- !app_assoc.
  repeat (split; [assumption || reflexivity |]). reflexivity.
Qed.

(** X7: a [MassErase] that returns has sent WriteEnable, ChipErase, then
    n+1 status reads, where n is the number of status reads that found the
    chip busy, then the memory-mapped ReadData, and no other command; the
    data lengths programmed are 0, 0, then 1 for each status read, then 0. *)
Theorem MassErase_sequence fuel s u s' :
  MassErase fuel s = Done u s' ->
  exists n,
    (forall i, (i < n)%nat -> chip_busy (dr_reads s + 2 * i) = true) /\
    chip_busy (dr_reads s + 2 * n) = false /\
    dr_reads s' = (dr_reads s + 2 * S n)%nat /\
    commands (trace s')
    = commands (trace s)
      ++ [Some WriteEnable; Some ChipErase]
      ++ repeat (Some ReadStatusRegister) (S n) ++ [Some ReadData] /\
    dlr_writes (trace s')
    = dlr_writes (trace s) ++ [0; 0] ++ repeat 1 (S n) ++ [0].
Proof.
  unfold MassErase. intros H.
  apply bind_Done in H. destruct H as (x1 & s1 & H1 & H).
  apply bind_Done in H. destruct H as (x2 & s2 & H2 & H).
  apply send_command_Done in H1. destruct H1 as (j1 & _ & _ & ->).
  apply send_command_Done in H2. destruct H2 as (j2 & _ & _ & ->).
  apply wait_then_memory_mapped_effect in H.
  destruct H as (n & Hbusy & Hclear & Hdr & Hcmd & Hdlr & _).
  rewrite !commands_sent in Hcmd.
  destruct (instruction_only_effect DefaultOperatingMode WriteEnable (S j1) s)
    as (_ & Edr1 & Edlr1 & _).
  destruct (instruction_only_effect DefaultOperatingMode ChipErase (S j2)
              (sent IndirectWrite DefaultOperatingMode WriteEnable 0 0 None 0
                    (S j1) s))
    as (_ & Edr2 & Edlr2 & _).
  rewrite Edr2, Edr1 in Hbusy, Hclear, Hdr. rewrite Edlr2, Edlr1 in Hdlr.
  exists n. rewrite Hcmd, Hdlr, <- !app_assoc.
  repeat (split; [assumption || reflexivity |]). reflexivity.
Qed.

(** X8: an [EraseSector] or a [WriteMemory] that returns has sent
    WriteEnable, n+1 status reads and the memory-mapped ReadData, and no
    other command, whatever the arguments of [WriteMemory]. *)
Theorem EraseSector_WriteMemory_sequence fuel source destination length s u s' :
  EraseSector fuel s = Done u s' \/
  WriteMemory fuel source destination length s = Done u s' ->
  exists n,
    (forall i, (i < n)%nat -> chip_busy (dr_reads s + 2 * i) = true) /\
    chip_busy (dr_reads s + 2 * n) = false /\
    dr_reads s' = (dr_reads s + 2 * S n)%nat /\
    commands (trace s')
    = commands (trace s)
      ++ [Some WriteEnable]
      ++ repeat (Some ReadStatusRegister) (S n) ++ [Some ReadData] /\
    dlr_writes (trace s')
    = dlr_writes (trace s) ++ [0] ++ repeat 1 (S n) ++ [0].
Proof.
  intros H.
  assert (H' : EraseSector fuel s = Done u s') by (destruct H; assumption).
  clear H. unfold EraseSector in H'.
  apply bind_Done in H'. destruct H' as (x1 & s1 & H1 & H).
  apply send_command_Done in H1. destruct H1 as (j1 & _ & _ & ->).
  apply wait_then_memory_mapped_effect in H.
  destruct H as (n & Hbusy & Hclear & Hdr & Hcmd & Hdlr & _).
  rewrite !commands_sent in Hcmd.
  destruct (instruction_only_effect DefaultOperatingMode WriteEnable (S j1) s)
    as (_ & Edr1 & Edlr1 & _).
  rewrite Edr1 in Hbusy, Hclear, Hdr. rewrite Edlr1 in Hdlr.
  exists n. rewrite Hcmd, Hdlr, <- !app_assoc.
  repeat (split; [assumption || reflexivity |]). reflexivity.
Qed.

(** X9: whichever of the three operations returns, it leaves CCR set for a
    memory-mapped ReadData with three address bytes and every phase at the
    default width, the data length at 0, and the address register as it
    found it; and it has written nothing to the address register or to the
    data register. *)
Theorem operations_final_registers fuel source destination length s u s' :
  MassErase fuel s = Done u s' \/ EraseSector fuel s = Done u s' \/
  WriteMemory fuel source destination length s = Done u s' ->
  QUADSPI_CCR s'
  = mkCCR (Some MemoryMapped) (Some DefaultOperatingMode) 0 (Some ThreeBytes)
          (Some DefaultOperatingMode) (Some DefaultOperatingMode)
          (Some ReadData) /\
  QUADSPI_DLR s' = 0 /\
  QUADSPI_AR s' = QUADSPI_AR s /\
  ar_writes (trace s') = ar_writes (trace s) /\
  dr_writes (trace s') = dr_writes (trace s).
Proof.
  intros [H | H].
  - unfold MassErase in H.
    apply bind_Done in H. destruct H as (x1 & s1 & H1 & H).
    apply bind_Done in H. destruct H as (x2 & s2 & H2 & H).
    apply send_command_Done in H1. destruct H1 as (j1 & _ & _ & ->).
    apply send_command_Done in H2. destruct H2 as (j2 & _ & _ & ->).
    apply wait_then_memory_mapped_effect in H.
    destruct H as (n & _ & _ & _ & _ & _ & Har & Hdw & Hccr & Hd & Ha).
    destruct (instruction_only_effect DefaultOperatingMode WriteEnable (S j1) s)
      as (Ea1 & _ & _ & Ear1 & Edw1).
    destruct (instruction_only_effect DefaultOperatingMode ChipErase (S j2)
                (sent IndirectWrite DefaultOperatingMode WriteEnable 0 0 None 0
                      (S j1) s))
      as (Ea2 & _ & _ & Ear2 & Edw2).
    rewrite Ea2, Ea1 in Ha. rewrite Ear2, Ear1 in Har. rewrite Edw2, Edw1 in Hdw.
    auto.
  - assert (H' : EraseSector fuel s = Done u s') by (destruct H; assumption).
    clear H. unfold EraseSector in H'.
    apply bind_Done in H'. destruct H' as (x1 & s1 & H1 & H).
    apply send_command_Done in H1. destruct H1 as (j1 & _ & _ & ->).
    apply wait_then_memory_mapped_effect in H.
    destruct H as (n & _ & _ & _ & _ & _ & Har & Hdw & Hccr & Hd & Ha).
    destruct (instruction_only_effect DefaultOperatingMode WriteEnable (S j1) s)
      as (Ea1 & _ & _ & Ear1 & Edw1).
    rewrite Ea1 in Ha. rewrite Ear1 in Har. rewrite Edw1 in Hdw.
    auto.
Qed.

(** ** Returning and not returning *)

(** X10: on a device whose controller settles after each transaction and
    whose chip reports ready at status read number n, each of the three
    operations returns, with the same result for every amount of fuel above
    a threshold. *)
Theorem operations_return_when_ready source destination length n s :
  settles ->
  (forall i, (i < n)%nat -> chip_busy (dr_reads s + 2 * i) = true) ->
  chip_busy (dr_reads s + 2 * n) = false ->
  (exists F s', forall fuel, (F <= fuel)%nat -> MassErase fuel s = Done tt s') /\
  (exists F s', forall fuel, (F <= fuel)%nat -> EraseSector fuel s = Done tt s') /\
  (exists F s', forall fuel, (F <= fuel)%nat ->
                WriteMemory fuel source destination length s = Done tt s').
Proof.
  intros Hsettles Hbusy Hclear. split; [| split].
  - exact (MassErase_returns n s Hsettles Hbusy Hclear).
  - exact (EraseSector_returns n s Hsettles Hbusy Hclear).
  - exact (WriteMemory_returns source destination length n s
             Hsettles Hbusy Hclear).
Qed.

Lemma outcome_Spinning {A : Type} (o : outcome A) :
  (forall a s, o <> Done a s) -> o <> Undefined -> o = Spinning.
Proof.
  intros Hd Hu. destruct o as [a s | |].
  - exfalso. apply (Hd a s). reflexivity.
  - reflexivity.
  - congruence.
Qed.

Lemma bind_defined {A B : Type} (c : M A) (k : A -> M B) s :
  c s <> Undefined ->
  (forall a s1, k a s1 <> Undefined) ->
  bind c k s <> Undefined.
Proof.
  intros Hc Hk. unfold bind. destruct (c s) as [a s1 | |].
  - apply Hk.
  - discriminate.
  - congruence.
Qed.

Lemma instruction_only_outcome fuel op c s :
  send_command_full fuel IndirectWrite op c 0 0 None 0 s
  = (while_BUSY fuel ;; ret None)
      (programmed (command_ccr IndirectWrite op c 0 0 None) 0 0 s).
Proof. rewrite send_command_full_setup. reflexivity. Qed.

Lemma instruction_only_stuck fuel op c s :
  (forall j, SR_BUSY hw (sr_reads s + j) = true) ->
  send_command_full fuel IndirectWrite op c 0 0 None 0 s = Spinning.
Proof.
  intros Hbusy. rewrite instruction_only_outcome. unfold bind.
  rewrite while_BUSY_stuck; [reflexivity | exact Hbusy].
Qed.

Lemma send_command_defined fuel c s : send_command fuel c s <> Undefined.
Proof.
  unfold send_command. apply bind_defined; [| discriminate].
  rewrite instruction_only_outcome.
  apply bind_defined; [apply while_BUSY_defined | discriminate].
Qed.

Lemma wait_then_memory_mapped_defined fuel s :
  (wait fuel ;; set_as_memory_mapped fuel) s <> Undefined.
Proof.
  apply bind_defined; [apply wait_loop_defined |].
  intros a s1. rewrite set_as_memory_mapped_returns. discriminate.
Qed.

Lemma MassErase_defined fuel s : MassErase fuel s <> Undefined.
Proof.
  unfold MassErase. apply bind_defined; [apply send_command_defined |].
  intros a1 s1. apply bind_defined; [apply send_command_defined |].
  intros a2 s2. apply wait_then_memory_mapped_defined.
Qed.

Lemma EraseSector_defined fuel s : EraseSector fuel s <> Undefined.
Proof.
  unfold EraseSector. apply bind_defined; [apply send_command_defined |].
  intros a1 s1. apply wait_then_memory_mapped_defined.
Qed.

Lemma MassErase_blocked fuel s a s' :
  (forall j, SR_BUSY hw (sr_reads s + j) = true) \/
  (forall i, chip_busy (dr_reads s + 2 * i) = true) ->
  MassErase fuel s <> Done a s'.
Proof.
  intros Hstuck H. unfold MassErase in H.
  apply bind_Done in H. destruct H as (x1 & s1 & H1 & H).
  apply bind_Done in H. destruct H as (x2 & s2 & H2 & H).
  apply send_command_Done in H1. destruct H1 as (j1 & _ & [_ Hc1] & ->).
  apply send_command_Done in H2. destruct H2 as (j2 & _ & _ & ->).
  apply wait_then_memory_mapped_effect in H.
  destruct H as (n & _ & Hclear & _).
  rewrite !sent_dr_reads, !Nat.add_0_r in Hclear.
  destruct Hstuck as [Hbusy | Hbusy].
  - rewrite Hbusy in Hc1. discriminate.
  - rewrite Hbusy in Hclear. discriminate.
Qed.

Lemma EraseSector_blocked fuel s a s' :
  (forall j, SR_BUSY hw (sr_reads s + j) = true) \/
  (forall i, chip_busy (dr_reads s + 2 * i) = true) ->
  EraseSector fuel s <> Done a s'.
Proof.
  intros Hstuck H. unfold EraseSector in H.
  apply bind_Done in H. destruct H as (x1 & s1 & H1 & H).
  apply send_command_Done in H1. destruct H1 as (j1 & _ & [_ Hc1] & ->).
  apply wait_then_memory_mapped_effect in H.
  destruct H as (n & _ & Hclear & _).
  rewrite !sent_dr_reads, !Nat.add_0_r in Hclear.
  destruct Hstuck as [Hbusy | Hbusy].
  - rewrite Hbusy in Hc1. discriminate.
  - rewrite Hbusy in Hclear. discriminate.
Qed.

(** X11: when the controller's BUSY bit never falls, or the chip's busy bit
    never clears, none of the three operations returns: whatever the fuel,
    the call is still in one of its polling loops.  There is no way out of
    them but the bit that is polled. *)
Theorem operations_spin_while_busy fuel source destination length s :
  (forall j, SR_BUSY hw (sr_reads s + j) = true) \/
  (forall i, chip_busy (dr_reads s + 2 * i) = true) ->
  MassErase fuel s = Spinning /\
  EraseSector fuel s = Spinning /\
  WriteMemory fuel source destination length s = Spinning.
Proof.
  intros Hstuck. split; [| split]; apply outcome_Spinning.
  - intros a s'. apply MassErase_blocked. exact Hstuck.
  - apply MassErase_defined.
  - intros a s'. apply EraseSector_blocked. exact Hstuck.
  - apply EraseSector_defined.
  - intros a s'. apply EraseSector_blocked. exact Hstuck.
  - apply EraseSector_defined.
Qed.

(** ** More on initialisation *)

Lemma gpio_accesses_cons g pins :
  gpio_accesses (g :: pins)
  = SetMODER (group g) (pin g)
    :: SetAFR (group g) (pin g) (if pin g =? 6 then AF10 else AF9)
    :: gpio_accesses pins.
Proof. reflexivity. Qed.

Lemma gpio_accesses_not_commands pins :
  Forall (fun e => is_command_access e = false) (gpio_accesses pins).
Proof.
  induction pins as [| g pins IH].
  - constructor.
  - rewrite gpio_accesses_cons. repeat constructor. exact IH.
Qed.





(** X13: [init] configures before it commands: when it returns, its
    accesses are, in order, those of the pins, then the clock enable, the
    flash size, the chip-select high time, the prescaler and the peripheral
    enable, and only then the accesses of its commands (data length, CCR and
    polls of BUSY), of which there is at least one write to CCR. *)
Theorem init_configures_before_commands fuel s u s' :
  init fuel s = Done u s' ->
  exists rest,
    trace s'
    = trace s ++ gpio_accesses QSPIPins
      ++ [SetQSPIEN true; SetFSIZE (FlashNumberOfAddressBits - 1); SetCSHT 7;
          SetPRESCALER 255; SetEN true]
      ++ rest /\
    Forall (fun e => is_command_access e = false) (gpio_accesses QSPIPins) /\
    Forall (fun e => is_command_access e = true) rest /\
    ccr_writes rest <> [].
Proof.
  rewrite init_initChip. unfold initChip. intros H.
  apply bind_Done in H. destruct H as (x & s1 & H1 & H).
  rewrite set_as_memory_mapped_returns in H. injection H as _ <-.
  assert (Hpolls : forall from k,
            Forall (fun e => is_command_access e = true) (polls from k)).
  { intros from k. unfold polls. apply Forall_map, Forall_forall. reflexivity. }
  destruct (OperatingMode_eqb DefaultOperatingMode Quad).
  - apply send_command_single_Done in H1. destruct H1 as (j & _ & _ & ->).
    exists ([SetDLR 0; SetCCR (command_ccr IndirectWrite Single EnableQPI 0 0 None)]
            ++ polls (sr_reads s) (S j)
            ++ [SetDLR 0;
                SetCCR (command_ccr MemoryMapped DefaultOperatingMode
                                    ReadData 0 0 None)]).
    split; [| split; [apply gpio_accesses_not_commands | split]].
    + rewrite !sent_trace. unfold logged. cbn [trace sr_reads dr_reads].
      unfold qspi_accesses. simpl setup. simpl transfer.
      rewrite <- !app_assoc. simpl. rewrite ?app_nil_r. reflexivity.
    + apply Forall_app. split; [repeat constructor |].
      apply Forall_app. split; [apply Hpolls | repeat constructor].
    + discriminate.
  - injection H1 as _ <-.
    exists [SetDLR 0;
            SetCCR (command_ccr MemoryMapped DefaultOperatingMode
                                ReadData 0 0 None)].
    split; [| split; [apply gpio_accesses_not_commands | split]].
    + rewrite !sent_trace. unfold logged. cbn [trace sr_reads dr_reads].
      unfold qspi_accesses. simpl setup. simpl transfer.
      rewrite <- !app_assoc. simpl. rewrite ?app_nil_r. reflexivity.
    + repeat constructor.
    + discriminate.
Qed.

Lemma OperatingMode_eqb_true (a b : OperatingMode) :
  OperatingMode_eqb a b = true -> a = b.
Proof. destruct a, b; (reflexivity || discriminate). Qed.

(** X14: [init] can only block when the default operating mode is Quad.
    With any other default it returns whatever the fuel, without reading the
    status register, even on a controller that is busy for ever; with Quad
    as default it never returns on such a controller. *)
Theorem init_blocks_only_in_quad_mode s :
  (DefaultOperatingMode <> Quad ->
   exists s', (forall fuel, init fuel s = Done tt s') /\
              sr_reads s' = sr_reads s) /\
  (DefaultOperatingMode = Quad ->
   (forall j, SR_BUSY hw (sr_reads s + j) = true) ->
   forall fuel, init fuel s = Spinning).
Proof.
  split.
  - intros Hq.
    exists (sent MemoryMapped DefaultOperatingMode ReadData 0 0 None 0 0
                 (logged (gpio_accesses QSPIPins ++ qspi_accesses) s)).
    split.
    + intros fuel. rewrite init_initChip. unfold initChip.
      destruct (OperatingMode_eqb DefaultOperatingMode Quad) eqn:E.
      * apply OperatingMode_eqb_true in E. contradiction.
      * unfold bind, ret. apply set_as_memory_mapped_returns.
    + rewrite sent_sr_reads. simpl. lia.
  - intros E Hbusy fuel. rewrite init_initChip. unfold initChip.
    rewrite E. simpl. unfold bind at 1, send_command_single, bind.
    rewrite instruction_only_stuck; [reflexivity | exact Hbusy].
Qed.

End Driver.

(** * The simulated devices *)

Lemma idle_device_settles : settles idle_device.
Proof. intros m. exists O. split; [intros i Hi; lia | reflexivity]. Qed.

Lemma slow_device_settles : settles slow_device.
Proof. intros m. exists O. split; [intros i Hi; lia | reflexivity]. Qed.

Lemma IndirectWrite_indirect : IndirectWrite <> MemoryMapped.
Proof. intros E. discriminate E. Qed.

Lemma IndirectRead_indirect : IndirectRead <> MemoryMapped.
Proof. intros E. discriminate E. Qed.

Lemma three_lt_five : (3 < 5)%nat.
Proof. lia. Qed.

Lemma lagging_device_clears : clears_after lagging_device 3 reset.
Proof.
  split.
  - intros [| [| [| j]]] Hj; (reflexivity || lia).
  - reflexivity.
Qed.

Lemma operations_end_memory_mapped_witness :
  exists s1 s2 s3,
    (MassErase Single idle_device 3 reset = Done tt s1 /\
     functionalModeOf s1 = Some MemoryMapped) /\
    (EraseSector Single slow_device 5 reset = Done tt s2 /\
     functionalModeOf s2 = Some MemoryMapped) /\
    (WriteMemory Single lagging_device 5 [1; 2; 3] 4096 3 reset = Done tt s3 /\
     functionalModeOf s3 = Some MemoryMapped).
Proof.
  eexists. eexists. eexists. split; [| split].
  - split; [vm_compute; reflexivity |].
    apply (proj1 (operations_end_memory_mapped
                    Single idle_device 3 [] 0 0 reset tt _)).
    vm_compute. reflexivity.
  - split; [vm_compute; reflexivity |].
    apply (proj1 (proj2 (operations_end_memory_mapped
                           Single slow_device 5 [] 0 0 reset tt _))).
    vm_compute. reflexivity.
  - split; [vm_compute; reflexivity |].
    apply (proj2 (proj2 (operations_end_memory_mapped
                           Single lagging_device 5 [1; 2; 3] 4096 3 reset tt _))).
    vm_compute. reflexivity.
Defined.

(** [wait] does not return on a device whose chip stays busy, so it does not
    terminate on every input. *)
Lemma wait_can_run_forever :
  ~ (forall (hw : Device) (s : Controller),
       exists fuel s', wait Single hw fuel s = Done tt s').
Proof.
  intros H. destruct (H stuck_device reset) as (fuel & s' & Hw).
  apply (wait_loop_stuck Single stuck_device fuel 0 reset
           (fun i => eq_refl) tt s' Hw).
Qed.

Lemma wait_returns_when_chip_ready_witness :
  (exists F s',
     (forall fuel, (F <= fuel)%nat ->
                   wait Single slow_device fuel reset = Done tt s') /\
     dr_reads s' = 6%nat /\
     commands (trace s') = repeat (Some ReadStatusRegister) 3) /\
  (forall fuel, wait Single stuck_device fuel reset = Spinning).
Proof.
  split.
  - destruct (proj1 (wait_returns_when_chip_ready Single slow_device reset) 2%nat)
      as (F & s' & HF & Hdr & Hcmd).
    + exact slow_device_settles.
    + intros [| [| i]] Hi; (reflexivity || lia).
    + reflexivity.
    + exists F, s'. split; [exact HF | split; [exact Hdr | exact Hcmd]].
  - apply (proj2 (wait_returns_when_chip_ready Single stuck_device reset)).
    intros i. reflexivity.
Defined.

(** C3, evaluated: asked to write 640 bytes (two and a half pages of 256),
    [WriteMemory] sends one WriteEnable, polls the status register and goes
    back to memory-mapped mode: no PageProgram command is sent and no byte
    is written to the data register. *)
Theorem WriteMemory_programs_nothing :
  exists s',
    WriteMemory Single idle_device 3 (repeat 255 640) 0 640 reset = Done tt s' /\
    commands (trace s')
    = [Some WriteEnable; Some ReadStatusRegister; Some ReadData] /\
    dr_writes (trace s') = [] /\
    ar_writes (trace s') = [].
Proof.
  eexists. split; [vm_compute; reflexivity |].
  split; [| split]; reflexivity.
Qed.

(** C4, evaluated: [EraseSector] sends WriteEnable, polls the status register
    and goes back to memory-mapped mode: no SectorErase command is sent and
    no address is written. *)
Theorem EraseSector_sends_no_erase :
  exists s',
    EraseSector Single idle_device 3 reset = Done tt s' /\
    commands (trace s')
    = [Some WriteEnable; Some ReadStatusRegister; Some ReadData] /\
    ar_writes (trace s') = [].
Proof.
  eexists. split; [vm_compute; reflexivity |].
  split; reflexivity.
Qed.

(** A call made for a misaligned address is neither rejected before any
    access to the hardware nor turned into an erase of the sector below. *)
Lemma EraseSector_checks_no_alignment :
  ~ (forall (sectorSize address : Z) (hw : Device) (fuel : nat)
            (s s' : Controller),
       0 < sectorSize -> address mod sectorSize <> 0 ->
       EraseSector Single hw fuel s = Done tt s' ->
       trace s' = trace s \/
       (In (Some SectorErase) (commands (trace s')) /\
        In (address - address mod sectorSize) (ar_writes (trace s')))).
Proof.
  intros H.
  destruct (EraseSector Single idle_device 3 reset) as [u s' | |] eqn:E;
    [| vm_compute in E; discriminate..].
  destruct u.
  assert (Hmis : 1 mod 4096 <> 0) by (vm_compute; discriminate).
  specialize (H 4096 1 idle_device 3%nat reset s' eq_refl Hmis E).
  vm_compute in E. injection E as <-.
  destruct H as [H | [_ H]]; vm_compute in H.
  - discriminate H.
  - exact H.
Qed.

Lemma EraseSector_starts_with_WriteEnable_witness :
  exists s' rest,
    EraseSector Single idle_device 3 reset = Done tt s' /\
    trace s'
    = SetDLR 0
      :: SetCCR (mkCCR (Some IndirectWrite) None 0 None None
                       (Some Single) (Some WriteEnable))
      :: rest.
Proof.
  assert (H : exists s', EraseSector Single idle_device 3 reset = Done tt s').
  { eexists. vm_compute. reflexivity. }
  destruct H as [s' H].
  destruct (EraseSector_starts_with_WriteEnable Single idle_device 3 reset tt s' H)
    as [rest Hrest].
  exists s', rest. split; [exact H | exact Hrest].
Defined.

Lemma init_enables_QPI_in_single_mode_witness :
  (exists s',
     init Quad board_pins 24 lagging_device 5 reset = Done tt s' /\
     ccr_writes (trace s')
     = [mkCCR (Some IndirectWrite) None 0 None None (Some Single) (Some EnableQPI);
        mkCCR (Some MemoryMapped) (Some Quad) 0 (Some ThreeBytes)
              (Some Quad) (Some Quad) (Some ReadData)] /\
     functionalModeOf s' = Some MemoryMapped) /\
  (exists s',
     init Single board_pins 24 jammed_device 0 reset = Done tt s' /\
     ccr_writes (trace s')
     = [mkCCR (Some MemoryMapped) (Some Single) 0 (Some ThreeBytes)
              (Some Single) (Some Single) (Some ReadData)] /\
     functionalModeOf s' = Some MemoryMapped).
Proof.
  split.
  - destruct (proj1 (init_enables_QPI_in_single_mode
                       Quad board_pins 24 lagging_device 5 reset) eq_refl)
      as [Hdone Hreturns].
    destruct (Hreturns 3%nat lagging_device_clears three_lt_five) as [s' Hs'].
    exists s'. split; [exact Hs' |]. exact (Hdone tt s' Hs').
  - exact (proj2 (init_enables_QPI_in_single_mode
                    Single board_pins 24 jammed_device 0 reset) eq_refl).
Defined.

Lemma send_command_full_waits_unless_memory_mapped_witness :
  (exists d s' j,
     send_command_full lagging_device 5 IndirectWrite Single PageProgram
                       4096 0 (Some [1; 2]) 2 reset = Done d s' /\
     (j < 5)%nat /\ clears_after lagging_device j reset /\
     sr_reads s' = S j) /\
  (forall d s',
     send_command_full jammed_device 5 IndirectRead Single ReadStatusRegister
                       0 0 (Some [0; 0]) 2 reset <> Done d s') /\
  (exists s',
     (forall fuel',
        send_command_full jammed_device fuel' MemoryMapped Single ReadData
                          0 0 None 0 reset = Done None s') /\
     sr_reads s' = O).
Proof.
  split; [| split].
  - destruct (proj1 (send_command_full_waits_unless_memory_mapped
                       lagging_device 5 IndirectWrite Single PageProgram
                       4096 0 (Some [1; 2]) 2 reset) IndirectWrite_indirect)
      as (Hdone & _ & Hreturns).
    destruct (Hreturns 3%nat) as (d & s' & Hs').
    + right. exists [1; 2]. split; [reflexivity | simpl; lia].
    + exact lagging_device_clears.
    + exact three_lt_five.
    + destruct (Hdone d s' Hs') as (j & Hj & Hc & Hsr & _).
      exists d, s', j. split; [exact Hs' |]. split; [exact Hj |].
      split; [exact Hc | exact Hsr].
  - destruct (proj1 (send_command_full_waits_unless_memory_mapped
                       jammed_device 5 IndirectRead Single ReadStatusRegister
                       0 0 (Some [0; 0]) 2 reset) IndirectRead_indirect)
      as (_ & Hstuck & _).
    apply Hstuck. intros j. reflexivity.
  - destruct (proj2 (send_command_full_waits_unless_memory_mapped
                       jammed_device 0 MemoryMapped Single ReadData
                       0 0 None 0 reset) eq_refl)
      as (s' & Hall & Hsr & _).
    exists s'. split; [exact Hall | exact Hsr].
Defined.

(** An address of 0 handed to the builder is not written to the address
    register, and the address phase stays disabled. *)
Lemma address_zero_is_not_written :
  ~ (forall (hw : Device) (fuel : nat) (fm : FunctionalMode)
            (op : OperatingMode) (c : Command) (a dc : Z) (data : buffer)
            (dl : Z) (s : Controller) (d : buffer) (s' : Controller),
       send_command_full hw fuel fm op c a dc data dl s = Done d s' ->
       ar_writes (trace s') = ar_writes (trace s) ++ [a] /\
       ADMODE (QUADSPI_CCR s') = Some op).
Proof.
  intros H.
  destruct (send_command_full idle_device 1 IndirectWrite Single PageProgram
                              0 0 (Some [171]) 1 reset) as [d s' | |] eqn:E;
    vm_compute in E; try discriminate.
  injection E as <- <-.
  specialize (H idle_device 1%nat IndirectWrite Single PageProgram 0 0
                (Some [171]) 1 reset _ _ eq_refl).
  destruct H as [H _]. discriminate H.
Qed.

Lemma send_command_full_address_phase_witness :
  (exists s',
     send_command_full idle_device 1 IndirectWrite Single PageProgram
                       4096 0 (Some [171]) 1 reset = Done (Some [171]) s' /\
     ADMODE (QUADSPI_CCR s') = Some Single /\
     ADSIZE (QUADSPI_CCR s') = Some ThreeBytes /\
     ar_writes (trace s') = [4096] /\ QUADSPI_AR s' = 4096) /\
  (exists s',
     send_command_full idle_device 1 IndirectWrite Single PageProgram
                       0 0 (Some [171]) 1 reset = Done (Some [171]) s' /\
     ADMODE (QUADSPI_CCR s') = None /\
     ADSIZE (QUADSPI_CCR s') = None /\
     ar_writes (trace s') = [] /\ QUADSPI_AR s' = 0).
Proof.
  split.
  - eexists. split; [vm_compute; reflexivity |].
    destruct (send_command_full_address_phase
                idle_device 1 IndirectWrite Single PageProgram
                4096 0 (Some [171]) 1 reset (Some [171]) _ eq_refl)
      as (_ & Hon & _ & Har & _).
    assert (Ha : 4096 <> 0) by (intros Ea; discriminate Ea).
    destruct (Hon (or_introl Ha)) as [H1 H2].
    destruct (Har Ha) as [H3 H4].
    split; [exact H1 |]. split; [exact H2 |]. split; [exact H3 | exact H4].
  - eexists. split; [vm_compute; reflexivity |].
    destruct (send_command_full_address_phase
                idle_device 1 IndirectWrite Single PageProgram
                0 0 (Some [171]) 1 reset (Some [171]) _ eq_refl)
      as (_ & _ & Hoff & _ & Har).
    destruct (Hoff (conj eq_refl IndirectWrite_indirect)) as [H1 H2].
    destruct (Har eq_refl) as [H3 H4].
    split; [exact H1 |]. split; [exact H2 |]. split; [exact H3 | exact H4].
Defined.

(** A status read transfers two bytes, not one. *)
Lemma status_read_is_not_one_byte :
  ~ (forall (hw : Device) (fuel : nat) (v : Z) (s : Controller)
            (v' : Z) (s' : Controller),
       poll Single hw fuel v s = Done v' s' ->
       QUADSPI_DLR s' = 1 - 1 /\ dr_reads s' = S (dr_reads s)).
Proof.
  intros H.
  destruct (poll Single idle_device 1 0 reset) as [v' s' | |] eqn:E;
    vm_compute in E; try discriminate.
  injection E as <- <-.
  specialize (H idle_device 1%nat 0 reset _ _ eq_refl).
  destruct H as [H _]. discriminate H.
Qed.

Lemma poll_reads_status_register_witness :
  exists v' s',
    poll Single slow_device 1 0 reset = Done v' s' /\
    QUADSPI_CCR s'
    = mkCCR (Some IndirectRead) (Some Single) 0 None None
            (Some Single) (Some ReadStatusRegister) /\
    QUADSPI_DLR s' = 1 /\
    dr_reads s' = 2%nat /\
    getBUSY v' = true.
Proof.
  eexists. eexists. split; [vm_compute; reflexivity |].
  destruct (poll_reads_status_register Single slow_device 1 0 reset _ _ eq_refl)
    as (Hccr & Hdlr & Hdr & _ & Hbusy & _).
  split; [exact Hccr |]. split; [exact Hdlr |]. split; [exact Hdr | exact Hbusy].
Defined.

Lemma send_command_full_data_length_witness :
  exists s0 s1 s5,
    send_command_full idle_device 1 IndirectWrite Single PageProgram
                      4096 0 None 0 reset = Done None s0 /\
    send_command_full idle_device 1 IndirectWrite Single PageProgram
                      4096 0 (Some [171]) 1 reset = Done (Some [171]) s1 /\
    send_command_full idle_device 1 IndirectWrite Single PageProgram
                      4096 0 (Some [1; 2; 3; 4; 5]) 5 reset
    = Done (Some [1; 2; 3; 4; 5]) s5 /\
    QUADSPI_DLR s0 = 0 /\ QUADSPI_DLR s1 = 0 /\ QUADSPI_DLR s5 = 4 /\
    QUADSPI_DLR s0 = QUADSPI_DLR s1.
Proof.
  eexists. eexists. eexists.
  split; [vm_compute; reflexivity |].
  split; [vm_compute; reflexivity |].
  split; [vm_compute; reflexivity |].
  destruct (send_command_full_data_length
              idle_device 1 IndirectWrite Single PageProgram 4096 0 reset)
    as [Hone Hsame].
  split; [| split; [| split]].
  - exact (proj1 (proj2 (Hone None 0 None _ eq_refl) eq_refl)).
  - exact (proj1 (proj1 (Hone (Some [171]) 1 (Some [171]) _ eq_refl)
                        eq_refl)).
  - exact (proj1 (proj1 (Hone (Some [1; 2; 3; 4; 5]) 5 (Some [1; 2; 3; 4; 5])
                              _ eq_refl)
                        eq_refl)).
  - exact (proj1 (Hsame None (Some [171]) None (Some [171]) _ _ eq_refl eq_refl)).
Defined.

(** * Runs of the further properties *)


Lemma indirect_read_fills_buffer_witness :
  exists d s',
    send_read_command Single wide_device 1 ReadData 4096 (Some [9; 9; 9]) 2 reset
    = Done d s' /\
    d = Some [0; 1; 9] /\
    dr_reads s' = 2%nat /\
    dr_writes (trace s') = [].
Proof.
  assert (E : exists d s',
            send_read_command Single wide_device 1 ReadData 4096
                              (Some [9; 9; 9]) 2 reset = Done d s')
    by (eexists; eexists; vm_compute; reflexivity).
  destruct E as (d & s' & E).
  pose proof E as H. apply indirect_read_fills_buffer in H.
  destruct H as (_ & Hd & _ & Hdr & Hw).
  exists d, s'. split; [exact E |]. split; [exact Hd |].
  split; [exact Hdr | exact Hw].
Defined.


Lemma send_command_full_access_order_witness :
  exists d s' k,
    send_command_full lagging_device 5 IndirectWrite Single PageProgram
                      4096 0 (Some [1; 2]) 2 reset = Done d s' /\
    trace s'
    = [SetDLR (QUADSPI_DLR s'); SetCCR (QUADSPI_CCR s'); SetAR 4096;
       SetDR 1; SetDR 2] ++ polls lagging_device 0 k /\
    (0 < k)%nat.
Proof.
  assert (E : exists d s',
            send_command_full lagging_device 5 IndirectWrite Single PageProgram
                              4096 0 (Some [1; 2]) 2 reset = Done d s')
    by (eexists; eexists; vm_compute; reflexivity).
  destruct E as (d & s' & E).
  pose proof E as H. apply send_command_full_access_order in H.
  destruct H as (k & Htr & _ & _ & Hk).
  exists d, s', k. split; [exact E |]. split; [exact Htr |].
  exact (Hk IndirectWrite_indirect).
Defined.

Lemma wait_leaves_indirect_read_witness :
  exists s',
    wait Single slow_device 4 reset = Done tt s' /\
    functionalModeOf s' = Some IndirectRead /\
    QUADSPI_DLR s' = 1.
Proof.
  assert (E : exists s', wait Single slow_device 4 reset = Done tt s')
    by (eexists; vm_compute; reflexivity).
  destruct E as (s' & E).
  pose proof E as H. apply wait_leaves_indirect_read in H.
  destruct H as (Hfm & _ & Hdlr & _).
  exists s'. split; [exact E |]. split; [exact Hfm | exact Hdlr].
Defined.

Lemma MassErase_sequence_witness :
  exists s' n,
    MassErase Single slow_device 5 reset = Done tt s' /\
    chip_busy slow_device (2 * n) = false /\
    dr_reads s' = (2 * S n)%nat /\
    commands (trace s')
    = [Some WriteEnable; Some ChipErase]
      ++ repeat (Some ReadStatusRegister) (S n) ++ [Some ReadData] /\
    dlr_writes (trace s') = [0; 0] ++ repeat 1 (S n) ++ [0].
Proof.
  assert (E : exists s', MassErase Single slow_device 5 reset = Done tt s')
    by (eexists; vm_compute; reflexivity).
  destruct E as (s' & E).
  pose proof E as H. apply MassErase_sequence in H.
  destruct H as (n & _ & Hclear & Hdr & Hcmd & Hdlr).
  exists s', n. split; [exact E |]. split; [exact Hclear |].
  split; [exact Hdr |]. split; [exact Hcmd | exact Hdlr].
Defined.

Lemma EraseSector_WriteMemory_sequence_witness :
  (exists s' n,
     EraseSector Single slow_device 5 reset = Done tt s' /\
     commands (trace s')
     = [Some WriteEnable]
       ++ repeat (Some ReadStatusRegister) (S n) ++ [Some ReadData]) /\
  (exists s' n,
     WriteMemory Single idle_device 3 [1; 2; 3] 4096 3 reset = Done tt s' /\
     commands (trace s')
     = [Some WriteEnable]
       ++ repeat (Some ReadStatusRegister) (S n) ++ [Some ReadData]).
Proof.
  split.
  - assert (E : exists s', EraseSector Single slow_device 5 reset = Done tt s')
      by (eexists; vm_compute; reflexivity).
    destruct E as (s' & E).
    destruct (EraseSector_WriteMemory_sequence
                Single slow_device 5 [] 0 0 reset tt s' (or_introl E))
      as (n & _ & _ & _ & Hcmd & _).
    exists s', n. split; [exact E | exact Hcmd].
  - assert (E : exists s',
              WriteMemory Single idle_device 3 [1; 2; 3] 4096 3 reset = Done tt s')
      by (eexists; vm_compute; reflexivity).
    destruct E as (s' & E).
    destruct (EraseSector_WriteMemory_sequence
                Single idle_device 3 [1; 2; 3] 4096 3 reset tt s' (or_intror E))
      as (n & _ & _ & _ & Hcmd & _).
    exists s', n. split; [exact E | exact Hcmd].
Defined.

Lemma operations_final_registers_witness :
  exists s',
    MassErase Quad lagging_device 5 reset = Done tt s' /\
    QUADSPI_CCR s'
    = mkCCR (Some MemoryMapped) (Some Quad) 0 (Some ThreeBytes)
            (Some Quad) (Some Quad) (Some ReadData) /\
    QUADSPI_DLR s' = 0 /\
    QUADSPI_AR s' = 0 /\
    ar_writes (trace s') = [] /\
    dr_writes (trace s') = [].
Proof.
  assert (E : exists s', MassErase Quad lagging_device 5 reset = Done tt s')
    by (eexists; vm_compute; reflexivity).
  destruct E as (s' & E).
  destruct (operations_final_registers
              Quad lagging_device 5 [] 0 0 reset tt s' (or_introl E))
    as (Hccr & Hdlr & Har & Haw & Hdw).
  exists s'. split; [exact E |]. split; [exact Hccr |]. split; [exact Hdlr |].
  split; [exact Har |]. split; [exact Haw | exact Hdw].
Defined.

Lemma slow_device_busy_twice i :
  (i < 2)%nat -> chip_busy slow_device (dr_reads reset + 2 * i) = true.
Proof. destruct i as [| [| i]]; intros Hi; (reflexivity || lia). Qed.

Lemma operations_return_when_ready_witness :
  (exists F s', forall fuel, (F <= fuel)%nat ->
                MassErase Single slow_device fuel reset = Done tt s') /\
  (exists F s', forall fuel, (F <= fuel)%nat ->
                EraseSector Single slow_device fuel reset = Done tt s') /\
  (exists F s', forall fuel, (F <= fuel)%nat ->
                WriteMemory Single slow_device fuel [7] 0 1 reset = Done tt s').
Proof.
  exact (operations_return_when_ready Single slow_device [7] 0 1 2 reset
           slow_device_settles slow_device_busy_twice eq_refl).
Defined.

Lemma operations_spin_while_busy_witness :
  (MassErase Single jammed_device 7 reset = Spinning /\
   EraseSector Single jammed_device 7 reset = Spinning /\
   WriteMemory Single jammed_device 7 [7] 0 1 reset = Spinning) /\
  (MassErase Single stuck_device 7 reset = Spinning /\
   EraseSector Single stuck_device 7 reset = Spinning /\
   WriteMemory Single stuck_device 7 [7] 0 1 reset = Spinning).
Proof.
  split.
  - exact (operations_spin_while_busy Single jammed_device 7 [7] 0 1 reset
             (or_introl (fun j => eq_refl))).
  - exact (operations_spin_while_busy Single stuck_device 7 [7] 0 1 reset
             (or_intror (fun i => eq_refl))).
Defined.


Lemma init_configures_before_commands_witness :
  exists s' rest,
    init Quad board_pins 24 lagging_device 5 reset = Done tt s' /\
    trace s'
    = gpio_accesses board_pins
      ++ [SetQSPIEN true; SetFSIZE 23; SetCSHT 7; SetPRESCALER 255; SetEN true]
      ++ rest /\
    Forall (fun e => is_command_access e = true) rest /\
    ccr_writes rest <> [].
Proof.
  assert (E : exists s',
            init Quad board_pins 24 lagging_device 5 reset = Done tt s')
    by (eexists; vm_compute; reflexivity).
  destruct E as (s' & E).
  pose proof E as H. apply init_configures_before_commands in H.
  destruct H as (rest & Htr & _ & Hrest & Hccr).
  exists s', rest. split; [exact E |]. split; [exact Htr |].
  split; [exact Hrest | exact Hccr].
Defined.

Lemma Single_is_not_Quad : Single <> Quad.
Proof. intros E. discriminate E. Qed.

Lemma init_blocks_only_in_quad_mode_witness :
  (exists s',
     (forall fuel, init Single board_pins 24 jammed_device fuel reset = Done tt s') /\
     sr_reads s' = O) /\
  (forall fuel, init Quad board_pins 24 jammed_device fuel reset = Spinning).
Proof.
  split.
  - exact (proj1 (init_blocks_only_in_quad_mode
                    Single board_pins 24 jammed_device reset)
                 Single_is_not_Quad).
  - exact (proj2 (init_blocks_only_in_quad_mode
                    Quad board_pins 24 jammed_device reset)
                 eq_refl (fun j => eq_refl)).
Defined.
